(** * Local service supervision (zenml/services/local/local_service.py)

    A shallow embedding of the local daemon service: the HTTP endpoint
    health monitor, the endpoint's TCP port negotiation and the daemon
    life-cycle (start, stop, liveness check).

    The Python methods mutate [self] and talk to the operating system
    (sockets, the process table, HTTP requests).  Both are made explicit:
    a method of a class [Self] is a computation [M Self A] that threads the
    receiver and the host, and either returns a value or raises.

    Calls to the logger are left out.  The host is sequential: nothing but
    the modelled calls changes it, a signal is recorded and delivered later,
    and writing the temporary file and starting the child succeed. *)

From stdpp Require Import base numbers strings gmap pretty.

Open Scope Z_scope.

(** ** Python values *)

(** Truth value testing, as used by [if x:], [not x], [x or y]. *)
Class Truthy (A : Type) := truthy : A -> bool.

#[global] Instance truthy_bool : Truthy bool := fun b => b.
#[global] Instance truthy_int : Truthy Z := fun z => negb (z =? 0).
#[global] Instance truthy_str : Truthy string :=
  fun s => match s with EmptyString => false | String _ _ => true end.
(** [None] is false; any other value of an [Optional[T]] is a [T]. *)
#[global] Instance truthy_optional `{Truthy A} : Truthy (option A) :=
  fun o => match o with None => false | Some a => truthy a end.

(** [x or d] on an optional string. *)
Definition str_or (x : option string) (d : string) : string :=
  match x with
  | Some s => if truthy s then s else d
  | None => d
  end.

(** [str(n)] / [f"{n}"] for an int: decimal digits with a leading minus. *)
Definition str_int (n : Z) : string := pretty n.

(** Arguments of an exception: the strings and ints the source passes. *)
Inductive PyVal :=
| VStr (s : string)
| VInt (n : Z).

Inductive Exception :=
| IOError (args : list PyVal)
| OverflowError
| ProcessLookupError.

(** [s] occurs in [m]. *)
Definition Contains (s m : string) : Prop :=
  exists a b : string, m = a +:+ s +:+ b.

(** ** The [requests] library, as far as the monitor sees it *)

Inductive RequestsClass :=
| RequestException
| ConnectionError
| ProxyError
| SSLError
| Timeout
| ConnectTimeout
| ReadTimeout
| TooManyRedirects
| InvalidURL.

(** The class hierarchy of [requests.exceptions]: everything derives from
    [RequestException]; [ConnectTimeout] derives from both
    [ConnectionError] and [Timeout]. *)
Definition issubclass (c base : RequestsClass) : bool :=
  match base, c with
  | RequestException, _ => true
  | ConnectionError, (ConnectionError | ProxyError | SSLError | ConnectTimeout) => true
  | ProxyError, ProxyError => true
  | SSLError, SSLError => true
  | Timeout, (Timeout | ConnectTimeout | ReadTimeout) => true
  | ConnectTimeout, ConnectTimeout => true
  | ReadTimeout, ReadTimeout => true
  | TooManyRedirects, TooManyRedirects => true
  | InvalidURL, InvalidURL => true
  | _, _ => false
  end.

Record RequestsError := {
  exc_class : RequestsClass;
  exc_str : string               (* str(e) *)
}.

Inductive HeadResult :=
| Response (status_code : Z)
| Raises (e : RequestsError).

(** ** The host *)

Inductive Signal := SIGINT | SIGKILL.

(** What the code does to the outside world, newest first. *)
Inductive Event :=
| EvBind (port : Z)                                  (* sock.bind(("", port)) *)
| EvHead (uri : string) (timeout : option Z)         (* requests.head *)
| EvWriteTemp (name content : string)                (* NamedTemporaryFile + write *)
| EvPopen (command : list string) (env : list (string * string))
          (start_new_session : bool)
| EvKillpg (pgrp : Z) (sig : Signal).

Record OS := {
  os_procs : gmap Z Z;                 (* existing pid -> its process group id *)
  os_port_free : Z -> bool;            (* would a bind on this port succeed *)
  os_head : string -> option Z -> HeadResult;   (* what a HEAD request meets *)
  os_next_pid : Z;                     (* pid given to the next child *)
  os_parent_pgid : Z;                  (* process group of the caller *)
  os_tmp_name : string;                (* name of the next temporary file *)
  os_executable : string;              (* sys.executable *)
  os_environ : list (string * string); (* os.environ *)
  os_trace : list Event
}.

Definition log_event (e : Event) (os : OS) : OS :=
  {| os_procs := os_procs os; os_port_free := os_port_free os;
     os_head := os_head os; os_next_pid := os_next_pid os;
     os_parent_pgid := os_parent_pgid os; os_tmp_name := os_tmp_name os;
     os_executable := os_executable os; os_environ := os_environ os;
     os_trace := e :: os_trace os |}.

(** A child is created: it gets the next pid; with [start_new_session] it
    leads a process group of its own, otherwise it joins the caller's. *)
Definition spawn (start_new_session : bool) (os : OS) : OS :=
  let pid := os_next_pid os in
  {| os_procs :=
       <[pid := if start_new_session then pid else os_parent_pgid os]> (os_procs os);
     os_port_free := os_port_free os;
     os_head := os_head os; os_next_pid := pid + 1;
     os_parent_pgid := os_parent_pgid os; os_tmp_name := os_tmp_name os;
     os_executable := os_executable os; os_environ := os_environ os;
     os_trace := os_trace os |}.

(** ** Computations on a receiver and the host *)

Inductive Outcome (A : Type) :=
| Ok (a : A)
| Raise (e : Exception).
Arguments Ok {A} a.
Arguments Raise {A} e.

Definition M (Self A : Type) : Type := Self -> OS -> Outcome A * Self * OS.

#[global] Instance M_ret Self : MRet (M Self) :=
  fun A a self os => (Ok a, self, os).

#[global] Instance M_bind Self : MBind (M Self) :=
  fun A B k m self os =>
    match m self os with
    | (Ok a, self', os') => k a self' os'
    | (Raise e, self', os') => (Raise e, self', os')
    end.

Definition raise {Self A} (e : Exception) : M Self A :=
  fun self os => (Raise e, self, os).

Definition get_self {Self} : M Self Self :=
  fun self os => (Ok self, self, os).

Definition get_os {Self} : M Self OS :=
  fun self os => (Ok os, self, os).

Definition emit {Self} (e : Event) : M Self unit :=
  fun self os => (Ok tt, self, log_event e os).

(** Run a method of a component [part] held by the receiver; [put] stores
    the component back, as the component object is shared. *)
Definition on_part {Self Part A} (part : Part) (put : Part -> Self -> Self)
    (m : M Part A) : M Self A :=
  fun self os =>
    match m part os with
    | (r, part', os') => (r, put part' self, os')
    end.

(** *** System calls and library calls *)

(** The largest value of a C [int], the type of a pid. *)
Definition INT_MAX : Z := 2147483647.

(** [psutil.pid_exists]: negative pids never exist and the pid of a process
    of the table exists.  For any other pid the test ends in [os.kill(pid,
    0)], which raises [OverflowError] when the pid does not fit a C [int]
    and reports no process otherwise.  The pids of a process table fit, so
    the order of the last two tests cannot be observed. *)
Definition psutil_pid_exists {Self} (pid : Z) : M Self bool :=
  os ← get_os;
  if pid <? 0 then mret false
  else if bool_decide (is_Some (os_procs os !! pid)) then mret true
  else if INT_MAX <? pid then raise OverflowError
  else mret false.

Definition os_getpgid {Self} (pid : Z) : M Self Z :=
  os ← get_os;
  match os_procs os !! pid with
  | Some pgrp => mret pgrp
  | None => raise ProcessLookupError
  end.

(** [os.killpg]: fails when the group has no member; delivery is
    asynchronous, so the process table is not changed by the call. *)
Definition os_killpg {Self} (pgrp : Z) (sig : Signal) : M Self unit :=
  os ← get_os;
  if bool_decide (map_Exists (fun _ g => g = pgrp) (os_procs os))
  then emit (EvKillpg pgrp sig)
  else raise ProcessLookupError.

(** [subprocess.Popen(command, env=..., start_new_session=...)] and [p.pid]. *)
Definition fork_child {Self} (start_new_session : bool) : M Self Z :=
  fun self os => (Ok (os_next_pid os), self, spawn start_new_session os).

Definition subprocess_Popen {Self} (command : list string)
    (env : list (string * string)) (start_new_session : bool) : M Self Z :=
  _ ← emit (EvPopen command env start_new_session);
  fork_child start_new_session.

(** [requests.head(uri, timeout=...)]. *)
Definition requests_head {Self} (uri : string) (timeout : option Z)
  : M Self HeadResult :=
  os ← get_os;
  _ ← emit (EvHead uri timeout);
  mret (os_head os uri timeout).

(** Python's short-circuit [a or b] and [a and b], where evaluating [b]
    calls into the host. *)
Definition py_or {Self} (a : bool) (b : M Self bool) : M Self bool :=
  if a then mret true else b.

Definition py_and {Self} (a : bool) (b : M Self bool) : M Self bool :=
  if a then b else mret false.

Definition py_not {Self} (b : M Self bool) : M Self bool :=
  v ← b; mret (negb v).

(** The int held by an [Optional[int]] that has been tested to be truthy. *)
Definition int_of (o : option Z) : Z :=
  match o with Some n => n | None => 0 end.
Definition str_of (o : option string) : string :=
  match o with Some s => s | None => EmptyString end.

(** ** Data model *)

(** Modelled from the spec: [ServiceState] of base_service.py, which is not
    among the sources; the states of the life-cycle are INACTIVE, STARTING,
    ACTIVE and ERROR. *)
Inductive ServiceState := INACTIVE | STARTING | ACTIVE | ERROR.

(** Modelled from the spec: [ServiceEndpointProtocol] of base_service.py,
    the desired protocol of an endpoint: TCP, HTTP or another one. *)
Inductive ServiceEndpointProtocol := TCP | HTTP | OtherProtocol.

Definition SERVICE_PORT_RANGE : Z * Z := (8000, 65535).
Definition DEFAULT_HTTP_HEALTHCHECK_TIMEOUT : Z := 5.

Record HttpEndpointHealthMonitorConfig := {
  healthcheck_uri_path : option string;
  http_status_code : option Z;
  http_timeout : option Z
}.

(** The defaults of the configuration class. *)
Definition default_monitor_config (path : option string)
  : HttpEndpointHealthMonitorConfig :=
  {| healthcheck_uri_path := path;
     http_status_code := Some 200;
     http_timeout := Some DEFAULT_HTTP_HEALTHCHECK_TIMEOUT |}.

Record HttpEndpointHealthMonitor := {
  monitor_config : HttpEndpointHealthMonitorConfig
}.

(** The three fields this file declares; the base class
    [ServiceEndpointConfig] is opaque here. *)
Record LocalDaemonServiceEndpointConfig := {
  protocol : option ServiceEndpointProtocol;
  port : option Z;
  allocate_port : option bool
}.

(** Modelled from the spec: the fields come from [ServiceEndpointStatus] of
    base_service.py (protocol, hostname, port, uri); the class of this file
    adds none. *)
Record LocalDaemonServiceEndpointStatus := {
  status_protocol : option ServiceEndpointProtocol;
  status_hostname : option string;
  status_port : option Z;
  status_uri : option string
}.

Record LocalDaemonServiceEndpoint := {
  endpoint_config : LocalDaemonServiceEndpointConfig;
  endpoint_status : LocalDaemonServiceEndpointStatus;
  endpoint_monitor : option HttpEndpointHealthMonitor
}.

Record LocalDaemonServiceConfig := { }.

(** Modelled from the spec: [state] and [last_error] come from
    [ServiceStatus] of base_service.py; [pid] is the field this file adds. *)
Record LocalDaemonServiceStatus := {
  state : ServiceState;
  last_error : option string;
  pid : option Z
}.

Record LocalDaemonService := {
  service_config : LocalDaemonServiceConfig;
  service_status : LocalDaemonServiceStatus;
  service_endpoint : option LocalDaemonServiceEndpoint
}.

(** Attribute assignments. *)
Definition with_endpoint_status (f : LocalDaemonServiceEndpointStatus ->
                                     LocalDaemonServiceEndpointStatus)
    (e : LocalDaemonServiceEndpoint) : LocalDaemonServiceEndpoint :=
  {| endpoint_config := endpoint_config e;
     endpoint_status := f (endpoint_status e);
     endpoint_monitor := endpoint_monitor e |}.

Definition assign_protocol (v : option ServiceEndpointProtocol)
    (s : LocalDaemonServiceEndpointStatus) :=
  {| status_protocol := v; status_hostname := status_hostname s;
     status_port := status_port s; status_uri := status_uri s |}.

Definition assign_hostname (v : option string)
    (s : LocalDaemonServiceEndpointStatus) :=
  {| status_protocol := status_protocol s; status_hostname := v;
     status_port := status_port s; status_uri := status_uri s |}.

Definition assign_port (v : option Z) (s : LocalDaemonServiceEndpointStatus) :=
  {| status_protocol := status_protocol s; status_hostname := status_hostname s;
     status_port := v; status_uri := status_uri s |}.

Definition assign_pid (v : option Z) (svc : LocalDaemonService)
  : LocalDaemonService :=
  {| service_config := service_config svc;
     service_status := {| state := state (service_status svc);
                          last_error := last_error (service_status svc);
                          pid := v |};
     service_endpoint := service_endpoint svc |}.

Definition assign_endpoint (e : LocalDaemonServiceEndpoint)
    (svc : LocalDaemonService) : LocalDaemonService :=
  {| service_config := service_config svc;
     service_status := service_status svc;
     service_endpoint := Some e |}.

Definition modify {Self} (f : Self -> Self) : M Self unit :=
  fun self os => (Ok tt, f self, os).

(** ** HttpEndpointHealthMonitor *)

Definition get_healthcheck_uri (endpoint : LocalDaemonServiceEndpoint)
  : M HttpEndpointHealthMonitor (option string) :=
  self ← get_self;
  let uri := status_uri (endpoint_status endpoint) in
  if negb (truthy uri) then mret None
  else mret (Some (str_of uri +:+
                   str_or (healthcheck_uri_path (monitor_config self)) "/")).

Definition check_endpoint_status (endpoint : LocalDaemonServiceEndpoint)
  : M HttpEndpointHealthMonitor (ServiceState * option string) :=
  check_uri ← get_healthcheck_uri endpoint;
  if negb (truthy check_uri)
  then mret (ERROR, Some "No healthcheck URI available")
  else
    self ← get_self;
    r ← requests_head (str_of check_uri) (http_timeout (monitor_config self));
    match r with
    | Response status_code =>
        if bool_decide (Some status_code = http_status_code (monitor_config self))
        then mret (ACTIVE, None)
        else mret (ERROR,
                   Some ("service endpoint healthcheck returned HTTP status code "
                         +:+ str_int status_code))
    | Raises e =>
        if issubclass (exc_class e) ConnectionError
        then mret (ERROR, Some ("cannot connect to service API: " +:+ exc_str e))
        else if issubclass (exc_class e) Timeout
        then mret (ERROR, Some ("service API healthcheck request timed out: "
                                +:+ exc_str e))
        else mret (ERROR,
                   Some ("unexpected error encountered while checking "
                         +:+ "the service API status: " +:+ exc_str e))
    end.

(** ** LocalDaemonServiceEndpoint *)

(** [bind] refuses a port outside 0-65535 with an [OverflowError], which the
    [except OSError] clause does not catch; otherwise the bind is attempted
    and the socket released. *)
Definition port_is_available (port : Z) : M LocalDaemonServiceEndpoint bool :=
  if (port <? 0) || (65535 <? port) then raise OverflowError
  else
    _ ← emit (EvBind port);
    os ← get_os;
    mret (os_port_free os port).

(** [for port in range(lo, lo + count): if available: return port],
    followed by [otherwise] when the loop runs out. *)
Fixpoint first_available (count : nat) (port : Z)
    (otherwise : M LocalDaemonServiceEndpoint Z)
  : M LocalDaemonServiceEndpoint Z :=
  match count with
  | O => otherwise
  | S count' =>
      free ← port_is_available port;
      if (free : bool) then mret port
      else first_available count' (port + 1) otherwise
  end.

(** The number of values of [range(lo, hi)]. *)
Definition range_length (r : Z * Z) : nat := Z.to_nat (snd r - fst r).
Arguments range_length : simpl never.

Definition no_free_port : Exception :=
  IOError [VStr "No free TCP ports found in the range %d - %d";
           VInt (fst SERVICE_PORT_RANGE); VInt (snd SERVICE_PORT_RANGE)].

Definition port_not_available (port : Z) : Exception :=
  IOError [VStr ("TCP port " +:+ str_int port +:+ " is not available.")].

(** The part of [_lookup_free_port] after the preferred port. *)
Definition reuse_or_scan : M LocalDaemonServiceEndpoint Z :=
  self ← get_self;
  let last := status_port (endpoint_status self) in
  reuse ← py_and (truthy last) (port_is_available (int_of last));
  if (reuse : bool) then mret (int_of last)
  else
    first_available (range_length SERVICE_PORT_RANGE) (fst SERVICE_PORT_RANGE)
      (raise no_free_port).

Definition _lookup_free_port : M LocalDaemonServiceEndpoint Z :=
  self ← get_self;
  let cfg := endpoint_config self in
  if truthy (port cfg) then
    free ← port_is_available (int_of (port cfg));
    if (free : bool) then mret (int_of (port cfg))
    else if negb (truthy (allocate_port cfg))
    then raise (port_not_available (int_of (port cfg)))
    else reuse_or_scan
  else reuse_or_scan.

Definition prepare_for_start : M LocalDaemonServiceEndpoint unit :=
  self ← get_self;
  _ ← modify (with_endpoint_status
                (assign_protocol (protocol (endpoint_config self))));
  _ ← modify (with_endpoint_status (assign_hostname (Some "localhost")));
  p ← _lookup_free_port;
  modify (with_endpoint_status (assign_port (Some p))).

(** ** LocalDaemonService *)

(** The recorded process id is set and the host knows the process:
    [self.status.pid and psutil.pid_exists(self.status.pid)]. *)
Definition daemon_running : M LocalDaemonService bool :=
  self ← get_self;
  let pid := pid (service_status self) in
  py_and (truthy pid) (psutil_pid_exists (int_of pid)).

(** [not self.status.pid or not psutil.pid_exists(self.status.pid)]. *)
Definition daemon_not_running : M LocalDaemonService bool :=
  self ← get_self;
  let pid := pid (service_status self) in
  py_or (negb (truthy pid)) (py_not (psutil_pid_exists (int_of pid))).

Definition check_status : M LocalDaemonService (ServiceState * option string) :=
  stopped ← daemon_not_running;
  if (stopped : bool)
  then mret (ERROR, Some "service daemon is not running")
  else mret (ACTIVE, None).

Definition _stop_daemon (force : option bool) : M LocalDaemonService unit :=
  stopped ← daemon_not_running;
  if (stopped : bool)
  then modify (assign_pid None)
  else
    self ← get_self;
    pgrp ← os_getpgid (int_of (pid (service_status self)));
    let s := if truthy force then SIGKILL else SIGINT in
    os_killpg pgrp s.

Definition deprovision (force : option bool) : M LocalDaemonService unit :=
  _stop_daemon force.

Definition daemon_entrypoint_name : string :=
  "zenml.services.local.local_daemon_entrypoint".

Section Launch.

(** [BaseService.to_json], the serialization of the service object, is
    declared in the base class. *)
Variable to_json : LocalDaemonService -> string.

Definition _get_daemon_cmd
  : M LocalDaemonService (list string * list (string * string)) :=
  self ← get_self;
  os ← get_os;
  let cfg_file := os_tmp_name os +:+ ".json" in
  _ ← emit (EvWriteTemp cfg_file (to_json self));
  let command :=
    [os_executable os; "-m"; daemon_entrypoint_name; "--config-file"; cfg_file] in
  mret (command, os_environ os).

Definition _start_daemon : M LocalDaemonService unit :=
  running ← daemon_running;
  if (running : bool)
  then modify (assign_pid None)
  else
    self ← get_self;
    _ ← match service_endpoint self with
        | Some endpoint => on_part endpoint assign_endpoint prepare_for_start
        | None => mret tt
        end;
    cmd ← _get_daemon_cmd;
    p ← subprocess_Popen (fst cmd) (snd cmd) true;
    modify (assign_pid (Some p)).

Definition provision : M LocalDaemonService unit := _start_daemon.

End Launch.

(** ** Results of a run *)

Definition result {Self A} (r : Outcome A * Self * OS) : Outcome A := r.1.1.
Definition self_after {Self A} (r : Outcome A * Self * OS) : Self := r.1.2.
Definition os_after {Self A} (r : Outcome A * Self * OS) : OS := r.2.

(** ** Sample hosts and services *)

Definition quiet_host : OS :=
  {| os_procs := {[ 4242 := 4242 ]};
     os_port_free := fun p => bool_decide (p ≠ 8080);
     os_head := fun _ _ => Response 200;
     os_next_pid := 5000;
     os_parent_pgid := 900;
     os_tmp_name := "/tmp/tmpq1";
     os_executable := "/usr/bin/python3";
     os_environ := [("HOME", "/root")];
     os_trace := [] |}.

(** Ports 8000, 8001 and 8080 are taken. *)
Definition crowded_host : OS :=
  {| os_procs := {[ 4242 := 4200 ]};
     os_port_free := fun p => negb (bool_decide (p ∈ [8000; 8001; 8080]));
     os_head := fun _ _ => Response 404;
     os_next_pid := 5000;
     os_parent_pgid := 900;
     os_tmp_name := "/tmp/tmpq1";
     os_executable := "/usr/bin/python3";
     os_environ := [];
     os_trace := [] |}.

(** No port can be bound. *)
Definition full_host : OS :=
  {| os_procs := ∅;
     os_port_free := fun _ => false;
     os_head := fun _ _ =>
       Raises {| exc_class := ConnectTimeout; exc_str := "timed out" |};
     os_next_pid := 5000;
     os_parent_pgid := 900;
     os_tmp_name := "/tmp/tmpq1";
     os_executable := "/usr/bin/python3";
     os_environ := [];
     os_trace := [] |}.

Definition sample_monitor : HttpEndpointHealthMonitor :=
  {| monitor_config := default_monitor_config None |}.

Definition sample_endpoint (preferred : option Z) (allocate : option bool)
    (last : option Z) (uri : option string) : LocalDaemonServiceEndpoint :=
  {| endpoint_config :=
       {| protocol := Some HTTP; port := preferred; allocate_port := allocate |};
     endpoint_status :=
       {| status_protocol := None; status_hostname := None;
          status_port := last; status_uri := uri |};
     endpoint_monitor := Some sample_monitor |}.

Definition sample_service (p : option Z)
    (e : option LocalDaemonServiceEndpoint) : LocalDaemonService :=
  {| service_config := Build_LocalDaemonServiceConfig;
     service_status := {| state := INACTIVE; last_error := None; pid := p |};
     service_endpoint := e |}.

Definition sample_to_json (svc : LocalDaemonService) : string :=
  "pid=" +:+ from_option str_int "null" (pid (service_status svc)).

(** A daemon that runs (pid 4242) behind an endpoint that answers 404. *)
Definition unhealthy_endpoint : LocalDaemonServiceEndpoint :=
  sample_endpoint None (Some true) (Some 8002) (Some "http://localhost:8002").

Definition unhealthy_service : LocalDaemonService :=
  sample_service (Some 4242) (Some unhealthy_endpoint).

(** A service whose recorded daemon (pid 4243) is gone. *)
Definition stopped_service : LocalDaemonService :=
  sample_service (Some 4243) (Some unhealthy_endpoint).

(** ** Vocabulary of the statements *)

(** A bind on [p] succeeds / fails with [OSError]. *)
Definition free (os : OS) (p : Z) : Prop :=
  0 <= p <= 65535 /\ os_port_free os p = true.

Definition busy (os : OS) (p : Z) : Prop :=
  0 <= p <= 65535 /\ os_port_free os p = false.

(** The configuration names a preferred port. *)
Definition preferred (cfg : LocalDaemonServiceEndpointConfig) (p : Z) : Prop :=
  port cfg = Some p /\ p <> 0.

(** No preferred port: the field is unset or 0. *)
Definition no_preferred (cfg : LocalDaemonServiceEndpointConfig) : Prop :=
  port cfg = None \/ port cfg = Some 0.

(** The preferred port does not settle the allocation and the search may
    go on: there is none, or it is busy and [allocate_port] is enabled. *)
Definition may_continue (cfg : LocalDaemonServiceEndpointConfig) (os : OS)
  : Prop :=
  no_preferred cfg \/
  exists p, preferred cfg p /\ busy os p /\ allocate_port cfg = Some true.

(** The port of the previous run cannot be reused: none is recorded, or
    it is busy. *)
Definition no_reuse (st : LocalDaemonServiceEndpointStatus) (os : OS) : Prop :=
  status_port st = None \/ status_port st = Some 0 \/
  exists q, status_port st = Some q /\ q <> 0 /\ busy os q.

Definition in_range (p : Z) : Prop :=
  fst SERVICE_PORT_RANGE <= p < snd SERVICE_PORT_RANGE.

(** The preference order of the port allocation. *)
Inductive PortChoice (ep : LocalDaemonServiceEndpoint) (os : OS) : Z -> Prop :=
| choose_preferred p :
    preferred (endpoint_config ep) p -> free os p ->
    PortChoice ep os p
| choose_previous q :
    may_continue (endpoint_config ep) os ->
    status_port (endpoint_status ep) = Some q -> q <> 0 -> free os q ->
    PortChoice ep os q
| choose_first_free r :
    may_continue (endpoint_config ep) os ->
    no_reuse (endpoint_status ep) os ->
    in_range r -> free os r ->
    (forall x, fst SERVICE_PORT_RANGE <= x < r -> os_port_free os x = false) ->
    PortChoice ep os r.


(** The endpoint after a start was prepared on port [p]. *)
Definition started_on (p : Z) (ep : LocalDaemonServiceEndpoint)
  : LocalDaemonServiceEndpoint :=
  with_endpoint_status
    (fun s => assign_port (Some p)
                (assign_hostname (Some "localhost")
                   (assign_protocol (protocol (endpoint_config ep)) s)))
    ep.

(** The bind attempts on [count] ports from [p] upwards. *)
Fixpoint log_binds (count : nat) (p : Z) (os : OS) : OS :=
  match count with
  | O => os
  | S count' => log_binds count' (p + 1) (log_event (EvBind p) os)
  end.

(** A process id is recorded and the host reports that it exists. *)
Definition alive (os : OS) (svc : LocalDaemonService) : bool :=
  match pid (service_status svc) with
  | Some p => bool_decide (0 < p /\ is_Some (os_procs os !! p))
  | None => false
  end.

(** The host after the attempt on the preferred port, and after the
    attempt on the port of the previous run. *)
Definition after_preferred (ep : LocalDaemonServiceEndpoint) (os : OS) : OS :=
  if truthy (port (endpoint_config ep))
  then log_event (EvBind (int_of (port (endpoint_config ep)))) os
  else os.

Definition after_previous (ep : LocalDaemonServiceEndpoint) (os : OS) : OS :=
  if truthy (status_port (endpoint_status ep))
  then log_event (EvBind (int_of (status_port (endpoint_status ep)))) os
  else os.

(** The endpoint when [prepare_for_start] calls [_lookup_free_port]. *)
Definition preparing (ep : LocalDaemonServiceEndpoint)
  : LocalDaemonServiceEndpoint :=
  with_endpoint_status
    (fun s => assign_hostname (Some "localhost")
                (assign_protocol (protocol (endpoint_config ep)) s))
    ep.

(** The recorded process id does not fit a C [int] (and so is the pid of
    no process): the liveness test on it raises [OverflowError]. *)
Definition pid_overflows (os : OS) (svc : LocalDaemonService) : bool :=
  match pid (service_status svc) with
  | Some p => bool_decide (INT_MAX < p /\ os_procs os !! p = None)
  | None => false
  end.

Definition with_allocate_port (a : option bool)
    (ep : LocalDaemonServiceEndpoint) : LocalDaemonServiceEndpoint :=
  {| endpoint_config :=
       {| protocol := protocol (endpoint_config ep);
          port := port (endpoint_config ep);
          allocate_port := a |};
     endpoint_status := endpoint_status ep;
     endpoint_monitor := endpoint_monitor ep |}.

(** The state after the daemon command was launched from [svc] on [os]:
    the configuration is written to a temporary file, the wrapper is started
    in a session of its own and the pid of the child is recorded. *)
Definition launched (to_json : LocalDaemonService -> string)
    (svc : LocalDaemonService) (os : OS)
  : Outcome unit * LocalDaemonService * OS :=
  let cfg_file := os_tmp_name os +:+ ".json" in
  let command :=
    [os_executable os; "-m"; "zenml.services.local.local_daemon_entrypoint";
     "--config-file"; cfg_file] in
  (Ok tt,
   assign_pid (Some (os_next_pid os)) svc,
   spawn true
     (log_event (EvPopen command (os_environ os) true)
        (log_event (EvWriteTemp cfg_file (to_json svc)) os))).

(** The signal a stop request sends. *)
Definition stop_signal (force : option bool) : Signal :=
  match force with
  | Some true => SIGKILL
  | _ => SIGINT
  end.

(** The check URI of a monitor for an endpoint whose URI is [u]. *)
Definition healthcheck_uri (mon : HttpEndpointHealthMonitor) (u : string)
  : string :=
  u +:+ str_or (healthcheck_uri_path (monitor_config mon)) "/".

Definition unexpected_status_message (code : Z) : string :=
  "service endpoint healthcheck returned HTTP status code " +:+ str_int code.

Definition connection_message (e : RequestsError) : string :=
  "cannot connect to service API: " +:+ exc_str e.

Definition timeout_message (e : RequestsError) : string :=
  "service API healthcheck request timed out: " +:+ exc_str e.

Definition request_error_message (e : RequestsError) : string :=
  "unexpected error encountered while checking the service API status: "
  +:+ exc_str e.

(** What the monitor makes of the outcome of the HEAD request, given the
    expected status code.  The causes are told apart in the order of the
    handlers: connection failures first, then timeouts, then the rest. *)
Inductive Verdict (expected : option Z)
  : HeadResult -> ServiceState * option string -> Prop :=
| verdict_healthy code :
    expected = Some code ->
    Verdict expected (Response code) (ACTIVE, None)
| verdict_status code :
    expected <> Some code ->
    Verdict expected (Response code)
      (ERROR, Some (unexpected_status_message code))
| verdict_connection e :
    issubclass (exc_class e) ConnectionError = true ->
    Verdict expected (Raises e) (ERROR, Some (connection_message e))
| verdict_timeout e :
    issubclass (exc_class e) ConnectionError = false ->
    issubclass (exc_class e) Timeout = true ->
    Verdict expected (Raises e) (ERROR, Some (timeout_message e))
| verdict_request_error e :
    issubclass (exc_class e) ConnectionError = false ->
    issubclass (exc_class e) Timeout = false ->
    Verdict expected (Raises e) (ERROR, Some (request_error_message e)).

(** What the monitor of the service's endpoint would report. *)
Definition endpoint_health (os : OS) (svc : LocalDaemonService)
  : option (ServiceState * option string) :=
  match service_endpoint svc with
  | Some ep =>
      match endpoint_monitor ep with
      | Some mon =>
          match result (check_endpoint_status ep mon os) with
          | Ok r => Some r
          | Raise _ => None
          end
      | None => None
      end
  | None => None
  end.

(** The rule of the specification for [check_status], at one service on
    one host: a dead process gives ERROR; a live process with an unhealthy
    endpoint gives ERROR with the monitor's message; ACTIVE is reported
    only for a live process whose endpoint, if any, is healthy. *)
Definition combines_liveness_and_health (os : OS) (svc : LocalDaemonService)
  : Prop :=
  forall st msg,
    result (check_status svc os) = Ok (st, msg) ->
    (alive os svc = false -> st = ERROR) /\
    (alive os svc = true ->
     forall m, endpoint_health os svc = Some (ERROR, m) ->
               st = ERROR /\ msg = m) /\
    (st = ACTIVE ->
     alive os svc = true /\
     (service_endpoint svc = None \/
      exists m, endpoint_health os svc = Some (ACTIVE, m))).

(** The rule of the specification for [deprovision], at one service on one
    host: no error, and the pid is cleared. *)
Definition clears_pid (force : option bool) (os : OS) (svc : LocalDaemonService)
  : Prop :=
  result (deprovision force svc os) = Ok tt /\
  pid (service_status (self_after (deprovision force svc os))) = None.

(** [os'] is [os] after some bind attempts and nothing else. *)
Inductive BindsOnly (os : OS) : OS -> Prop :=
| binds_none : BindsOnly os os
| binds_more os' p : BindsOnly os os' -> BindsOnly os (log_event (EvBind p) os').

Definition is_bind (e : Event) : bool :=
  match e with EvBind _ => true | _ => false end.

Definition valid_port (p : Z) : Prop := 0 <= p <= 65535.

(** Every way a run of [_lookup_free_port] can go: the result and the host
    it leaves. *)
Inductive LookupRun (ep : LocalDaemonServiceEndpoint) (os : OS)
  : Outcome Z -> OS -> Prop :=
| run_preferred_invalid p :
    preferred (endpoint_config ep) p -> ~ valid_port p ->
    LookupRun ep os (Raise OverflowError) os
| run_preferred_free p :
    preferred (endpoint_config ep) p -> free os p ->
    LookupRun ep os (Ok p) (log_event (EvBind p) os)
| run_pinned p :
    preferred (endpoint_config ep) p -> busy os p ->
    truthy (allocate_port (endpoint_config ep)) = false ->
    LookupRun ep os (Raise (port_not_available p)) (log_event (EvBind p) os)
| run_previous_invalid q :
    may_continue (endpoint_config ep) os ->
    status_port (endpoint_status ep) = Some q -> q <> 0 -> ~ valid_port q ->
    LookupRun ep os (Raise OverflowError) (after_preferred ep os)
| run_previous q :
    may_continue (endpoint_config ep) os ->
    status_port (endpoint_status ep) = Some q -> q <> 0 -> free os q ->
    LookupRun ep os (Ok q) (log_event (EvBind q) (after_preferred ep os))
| run_scan r :
    may_continue (endpoint_config ep) os ->
    no_reuse (endpoint_status ep) os ->
    in_range r -> free os r ->
    (forall x, fst SERVICE_PORT_RANGE <= x < r -> os_port_free os x = false) ->
    LookupRun ep os (Ok r)
      (log_binds (Z.to_nat (r - fst SERVICE_PORT_RANGE + 1))
         (fst SERVICE_PORT_RANGE)
         (after_previous ep (after_preferred ep os)))
| run_exhausted :
    may_continue (endpoint_config ep) os ->
    no_reuse (endpoint_status ep) os ->
    (forall x, in_range x -> os_port_free os x = false) ->
    LookupRun ep os (Raise no_free_port)
      (log_binds (range_length SERVICE_PORT_RANGE) (fst SERVICE_PORT_RANGE)
         (after_previous ep (after_preferred ep os))).

(** A host on which every port is free. *)
Definition idle_host : OS :=
  {| os_procs := ∅;
     os_port_free := fun _ => true;
     os_head := fun _ _ => Response 200;
     os_next_pid := 5000;
     os_parent_pgid := 900;
     os_tmp_name := "/tmp/tmpq1";
     os_executable := "/usr/bin/python3";
     os_environ := [];
     os_trace := [] |}.

(** A service whose recorded pid, 2**31, fits no C [int]. *)
Definition huge_pid_service : LocalDaemonService :=
  sample_service (Some 2147483648) None.

(** The rule of the specification for the result of [check_status], at one
    service on one host: a pair of a state and an optional message. *)
Definition returns_state_and_message (os : OS) (svc : LocalDaemonService)
  : Prop :=
  exists (st : ServiceState) (msg : option string),
    result (check_status svc os) = Ok (st, msg).

(** The rule of the specification for [provision] on a service that is not
    running and has no endpoint, at one service on one host: the daemon is
    launched and its pid recorded. *)
Definition launches_when_not_running (to_json : LocalDaemonService -> string)
    (os : OS) (svc : LocalDaemonService) : Prop :=
  alive os svc = false -> service_endpoint svc = None ->
  provision to_json svc os = launched to_json svc os.

(** ** Running the primitives *)

Lemma bind_ok {Self A B} (m : M Self A) (k : A -> M Self B) self os a self' os' :
  m self os = (Ok a, self', os') ->
  (m ≫= k) self os = k a self' os'.
Proof. intros E. unfold mbind, M_bind. now rewrite E. Qed.

Lemma bind_raise {Self A B} (m : M Self A) (k : A -> M Self B) self os e self' os' :
  m self os = (Raise e, self', os') ->
  (m ≫= k) self os = (Raise e, self', os').
Proof. intros E. unfold mbind, M_bind. now rewrite E. Qed.

Lemma truthy_int_spec (z : Z) : truthy z = true <-> z <> 0.
Proof. unfold truthy, truthy_int. destruct (Z.eqb_spec z 0); simpl; split; congruence. Qed.

Lemma truthy_port_preferred cfg p :
  preferred cfg p -> truthy (port cfg) = true /\ int_of (port cfg) = p.
Proof.
  intros [E Hp]. rewrite E. split; [|reflexivity].
  now apply truthy_int_spec.
Qed.

Lemma truthy_port_none cfg : no_preferred cfg -> truthy (port cfg) = false.
Proof. intros [E | E]; now rewrite E. Qed.

Lemma port_is_available_run p self os :
  0 <= p <= 65535 ->
  port_is_available p self os
  = (Ok (os_port_free os p), self, log_event (EvBind p) os).
Proof.
  intros Hp. unfold port_is_available.
  replace ((p <? 0) || (65535 <? p)) with false; [reflexivity|].
  symmetry. apply orb_false_iff. split; [apply Z.ltb_ge | apply Z.ltb_ge]; lia.
Qed.

Lemma port_is_available_overflow p self os :
  p < 0 \/ 65535 < p ->
  port_is_available p self os = (Raise OverflowError, self, os).
Proof.
  intros Hp. unfold port_is_available.
  replace ((p <? 0) || (65535 <? p)) with true; [reflexivity|].
  symmetry. apply orb_true_iff. rewrite !Z.ltb_lt. exact Hp.
Qed.

(** *** The range scan *)

Lemma first_available_busy count : forall lo otherwise self os,
  0 <= lo -> lo + Z.of_nat count <= 65536 ->
  (forall x, lo <= x < lo + Z.of_nat count -> os_port_free os x = false) ->
  first_available count lo otherwise self os
  = otherwise self (log_binds count lo os).
Proof.
  induction count as [|count IH]; intros lo otherwise self os Hlo Hhi Hbusy.
  - reflexivity.
  - cbn [first_available log_binds].
    rewrite (bind_ok _ _ _ _ _ _ _ (port_is_available_run lo self os ltac:(lia))).
    rewrite (Hbusy lo) by lia.
    apply IH; [lia | lia |].
    intros x Hx. apply (Hbusy x). lia.
Qed.

Lemma first_available_found count : forall lo otherwise self os r,
  0 <= lo -> lo + Z.of_nat count <= 65536 ->
  lo <= r < lo + Z.of_nat count ->
  os_port_free os r = true ->
  (forall x, lo <= x < r -> os_port_free os x = false) ->
  first_available count lo otherwise self os
  = (Ok r, self, log_binds (Z.to_nat (r - lo + 1)) lo os).
Proof.
  induction count as [|count IH]; intros lo otherwise self os r Hlo Hhi Hr Hfree Hbusy.
  - lia.
  - cbn [first_available].
    rewrite (bind_ok _ _ _ _ _ _ _ (port_is_available_run lo self os ltac:(lia))).
    destruct (decide (r = lo)) as [-> | Hne].
    + rewrite Hfree. replace (lo - lo + 1) with 1 by lia. reflexivity.
    + rewrite (Hbusy lo) by lia.
      rewrite (IH (lo + 1) otherwise self (log_event (EvBind lo) os) r);
        [ | lia | lia | lia | exact Hfree | intros x Hx; apply (Hbusy x); lia ].
      replace (Z.to_nat (r - lo + 1)) with (S (Z.to_nat (r - (lo + 1) + 1))) by lia.
      reflexivity.
Qed.

Ltac port_cases p self os :=
  destruct (decide (0 <= p <= 65535)) as [?Hvalid | ?Hinvalid];
  [ rewrite (bind_ok _ _ _ _ _ _ _ (port_is_available_run p self os ltac:(assumption)))
  | rewrite (bind_raise _ _ _ _ _ _ _
               (port_is_available_overflow p self os ltac:(lia))) ].

(** The scan raises nothing but [otherwise]'s exception or a bind's. *)
Lemma first_available_raises count : forall lo otherwise self os e,
  (forall self' os' e', result (otherwise self' os') = Raise e' -> e' = no_free_port) ->
  result (first_available count lo otherwise self os) = Raise e ->
  e = no_free_port \/ e = OverflowError.
Proof.
  induction count as [|count IH]; intros lo otherwise self os e Hother.
  - cbn [first_available]. intros E. left. eapply Hother, E.
  - cbn [first_available]. port_cases lo self os.
    + destruct (os_port_free os lo).
      * intros E. discriminate E.
      * apply IH, Hother.
    + intros E. inversion E. now right.
Qed.

(** *** The allocation *)

Lemma range_length_ports :
  Z.of_nat (range_length SERVICE_PORT_RANGE) = 57535.
Proof. unfold range_length, SERVICE_PORT_RANGE. cbn [fst snd]. lia. Qed.

Lemma port_free_after_preferred ep os p :
  os_port_free (after_preferred ep os) p = os_port_free os p.
Proof. unfold after_preferred. now destruct (truthy _). Qed.

Lemma port_free_after_previous ep os p :
  os_port_free (after_previous ep os) p = os_port_free os p.
Proof. unfold after_previous. now destruct (truthy _). Qed.

Lemma lookup_preferred_free ep os p :
  preferred (endpoint_config ep) p -> free os p ->
  _lookup_free_port ep os = (Ok p, ep, log_event (EvBind p) os).
Proof.
  intros Hpref [Hvalid Hfree].
  destruct (truthy_port_preferred _ _ Hpref) as [Ht Hint].
  unfold _lookup_free_port. rewrite (bind_ok _ _ ep os ep ep os eq_refl).
  cbv zeta. rewrite Ht, Hint.
  rewrite (bind_ok _ _ _ _ _ _ _ (port_is_available_run p ep os Hvalid)).
  now rewrite Hfree.
Qed.

Lemma lookup_preferred_pinned ep os p :
  preferred (endpoint_config ep) p -> busy os p ->
  truthy (allocate_port (endpoint_config ep)) = false ->
  _lookup_free_port ep os
  = (Raise (port_not_available p), ep, log_event (EvBind p) os).
Proof.
  intros Hpref [Hvalid Hbusy] Hpin.
  destruct (truthy_port_preferred _ _ Hpref) as [Ht Hint].
  unfold _lookup_free_port. rewrite (bind_ok _ _ ep os ep ep os eq_refl).
  cbv zeta. rewrite Ht, Hint.
  rewrite (bind_ok _ _ _ _ _ _ _ (port_is_available_run p ep os Hvalid)).
  now rewrite Hbusy, Hpin.
Qed.

Lemma lookup_continues ep os :
  may_continue (endpoint_config ep) os ->
  _lookup_free_port ep os = reuse_or_scan ep (after_preferred ep os).
Proof.
  intros [Hnone | (p & Hpref & [Hvalid Hbusy] & Halloc)].
  - unfold _lookup_free_port, after_preferred.
    rewrite (bind_ok _ _ ep os ep ep os eq_refl). cbv zeta.
    now rewrite (truthy_port_none _ Hnone).
  - destruct (truthy_port_preferred _ _ Hpref) as [Ht Hint].
    unfold _lookup_free_port, after_preferred.
    rewrite (bind_ok _ _ ep os ep ep os eq_refl). cbv zeta.
    rewrite Ht, Hint.
    rewrite (bind_ok _ _ _ _ _ _ _ (port_is_available_run p ep os Hvalid)).
    now rewrite Hbusy, Halloc.
Qed.

Lemma reuse_previous ep os q :
  status_port (endpoint_status ep) = Some q -> q <> 0 -> free os q ->
  reuse_or_scan ep os = (Ok q, ep, log_event (EvBind q) os).
Proof.
  intros Hlast Hq [Hvalid Hfree].
  unfold reuse_or_scan. rewrite (bind_ok _ _ ep os ep ep os eq_refl).
  cbv zeta. rewrite Hlast. unfold py_and.
  replace (truthy (Some q)) with true
    by (symmetry; now apply truthy_int_spec).
  cbn [int_of].
  rewrite (bind_ok _ _ _ _ _ _ _ (port_is_available_run q ep os Hvalid)).
  now rewrite Hfree.
Qed.

Lemma scan_after_previous ep os :
  no_reuse (endpoint_status ep) os ->
  reuse_or_scan ep os
  = first_available (range_length SERVICE_PORT_RANGE) (fst SERVICE_PORT_RANGE)
      (raise no_free_port) ep (after_previous ep os).
Proof.
  intros Hno. unfold reuse_or_scan, after_previous.
  rewrite (bind_ok _ _ ep os ep ep os eq_refl). cbv zeta.
  destruct Hno as [E | [E | (q & E & Hq & [Hvalid Hbusy])]]; rewrite E.
  - reflexivity.
  - reflexivity.
  - unfold py_and.
    replace (truthy (Some q)) with true
      by (symmetry; now apply truthy_int_spec).
    cbn [int_of].
    rewrite (bind_ok _ _ _ _ _ _ _ (port_is_available_run q ep os Hvalid)).
    now rewrite Hbusy.
Qed.

Lemma lookup_choice ep os p :
  PortChoice ep os p ->
  exists os', _lookup_free_port ep os = (Ok p, ep, os').
Proof.
  intros [p' Hpref Hfree | q Hcont Hlast Hq Hfree | r Hcont Hno Hr Hfree Hleast].
  - eexists. now apply lookup_preferred_free.
  - rewrite (lookup_continues _ _ Hcont). eexists.
    apply reuse_previous; [assumption | assumption |].
    destruct Hfree as [? ?]. split; [assumption|].
    now rewrite port_free_after_preferred.
  - rewrite (lookup_continues _ _ Hcont).
    rewrite scan_after_previous.
    + eexists. destruct Hfree as [Hvalid Hfree]. destruct Hr as [Hlo Hhi].
      cbn [fst snd SERVICE_PORT_RANGE] in Hlo, Hhi, Hleast |- *.
      apply first_available_found.
      * lia.
      * rewrite range_length_ports. lia.
      * rewrite range_length_ports. lia.
      * now rewrite port_free_after_previous, port_free_after_preferred.
      * intros x Hx.
        rewrite port_free_after_previous, port_free_after_preferred.
        now apply Hleast.
    + destruct Hno as [E | [E | (q & E & Hq & [Hvalid Hbusy])]].
      * now left.
      * right. now left.
      * right. right. exists q. split; [assumption|]. split; [assumption|].
        split; [assumption|]. now rewrite port_free_after_preferred.
Qed.


Lemma prepare_for_start_run ep os :
  prepare_for_start ep os
  = match _lookup_free_port (preparing ep) os with
    | (Ok p, ep', os') =>
        (Ok tt, with_endpoint_status (assign_port (Some p)) ep', os')
    | (Raise e, ep', os') => (Raise e, ep', os')
    end.
Proof.
  unfold prepare_for_start.
  rewrite (bind_ok _ _ ep os ep ep os eq_refl).
  unfold mbind at 1, M_bind at 1, modify at 1.
  unfold mbind at 1, M_bind at 1, modify at 1.
  unfold mbind at 1, M_bind at 1.
  change (with_endpoint_status (assign_hostname (Some "localhost"))
            (with_endpoint_status
               (assign_protocol (protocol (endpoint_config ep))) ep))
    with (preparing ep).
  destruct (_lookup_free_port (preparing ep) os) as [[[p | e] ep'] os'];
    reflexivity.
Qed.

Lemma choice_preparing ep os p :
  PortChoice ep os p -> PortChoice (preparing ep) os p.
Proof.
  intros [p' Hpref Hfree | q Hcont Hlast Hq Hfree | r Hcont Hno Hr Hfree Hleast].
  - now apply choose_preferred.
  - now apply choose_previous.
  - now apply choose_first_free.
Qed.

(** *** The daemon *)

Lemma psutil_pid_exists_run {Self} p (self : Self) os :
  psutil_pid_exists p self os
  = (if p <? 0 then Ok false
     else if bool_decide (is_Some (os_procs os !! p)) then Ok true
     else if INT_MAX <? p then Raise OverflowError
     else Ok false,
     self, os).
Proof.
  unfold psutil_pid_exists. rewrite (bind_ok _ _ self os os self os eq_refl).
  destruct (p <? 0); [reflexivity|].
  destruct (bool_decide (is_Some (os_procs os !! p))); [reflexivity|].
  now destruct (INT_MAX <? p).
Qed.

(** The test on a recorded pid other than 0, in terms of [alive] and
    [pid_overflows]. *)
Lemma pid_check os svc p :
  pid (service_status svc) = Some p -> p <> 0 ->
  (if p <? 0 then Ok false
   else if bool_decide (is_Some (os_procs os !! p)) then Ok true
   else if INT_MAX <? p then Raise OverflowError
   else Ok false)
  = (if pid_overflows os svc then Raise OverflowError else Ok (alive os svc)).
Proof.
  intros E Hp. unfold pid_overflows, alive. rewrite E.
  destruct (Z.ltb_spec p 0) as [Hneg | Hpos].
  - rewrite bool_decide_eq_false_2 by (unfold INT_MAX; intros [? _]; lia).
    rewrite bool_decide_eq_false_2 by (intros [? _]; lia). reflexivity.
  - destruct (os_procs os !! p) as [g|] eqn:Hg.
    + rewrite bool_decide_eq_true_2 by (now exists g).
      rewrite bool_decide_eq_false_2 by (intros [_ ?]; discriminate).
      rewrite bool_decide_eq_true_2 by (split; [lia | now exists g]).
      reflexivity.
    + rewrite bool_decide_eq_false_2 by (intros [? ?]; discriminate).
      destruct (Z.ltb_spec INT_MAX p) as [Hbig | Hfits].
      * rewrite bool_decide_eq_true_2 by (now split). reflexivity.
      * rewrite bool_decide_eq_false_2 by (intros [? _]; lia).
        rewrite bool_decide_eq_false_2 by (intros [_ [? ?]]; discriminate).
        reflexivity.
Qed.

Lemma zero_pid_dead os svc :
  pid (service_status svc) = Some 0 ->
  pid_overflows os svc = false /\ alive os svc = false.
Proof.
  intros E. unfold pid_overflows, alive. rewrite E. split.
  - apply bool_decide_eq_false. unfold INT_MAX. intros [? _]. lia.
  - apply bool_decide_eq_false. intros [? _]. lia.
Qed.

Lemma daemon_running_run svc os :
  daemon_running svc os
  = (if pid_overflows os svc then Raise OverflowError else Ok (alive os svc),
     svc, os).
Proof.
  unfold daemon_running.
  rewrite (bind_ok _ _ svc os svc svc os eq_refl). cbv zeta.
  destruct (pid (service_status svc)) as [p|] eqn:E.
  - change (int_of (Some p)) with p.
    unfold py_and, truthy at 1, truthy_optional, truthy, truthy_int.
    destruct (Z.eqb_spec p 0) as [-> | Hp]; cbn [negb].
    + destruct (zero_pid_dead os svc E) as [-> ->]. reflexivity.
    + rewrite psutil_pid_exists_run. now rewrite (pid_check os svc p E Hp).
  - unfold pid_overflows, alive. rewrite E. reflexivity.
Qed.

Lemma daemon_not_running_run svc os :
  daemon_not_running svc os
  = (if pid_overflows os svc then Raise OverflowError
     else Ok (negb (alive os svc)),
     svc, os).
Proof.
  unfold daemon_not_running.
  rewrite (bind_ok _ _ svc os svc svc os eq_refl). cbv zeta.
  destruct (pid (service_status svc)) as [p|] eqn:E.
  - change (int_of (Some p)) with p.
    unfold py_or, py_not, truthy at 1, truthy_optional, truthy, truthy_int.
    destruct (Z.eqb_spec p 0) as [-> | Hp]; cbn [negb].
    + destruct (zero_pid_dead os svc E) as [-> ->]. reflexivity.
    + unfold mbind at 1, M_bind at 1.
      rewrite psutil_pid_exists_run, (pid_check os svc p E Hp).
      now destruct (pid_overflows os svc).
  - unfold pid_overflows, alive. rewrite E. reflexivity.
Qed.

Lemma check_status_run svc os :
  check_status svc os
  = (if pid_overflows os svc then Raise OverflowError
     else Ok (if alive os svc then (ACTIVE, None)
              else (ERROR, Some "service daemon is not running")),
     svc, os).
Proof.
  unfold check_status. unfold mbind at 1, M_bind at 1.
  rewrite daemon_not_running_run.
  destruct (pid_overflows os svc); [reflexivity|].
  now destruct (alive os svc).
Qed.

Lemma pid_alive os svc p g :
  pid (service_status svc) = Some p -> 0 < p -> os_procs os !! p = Some g ->
  alive os svc = true.
Proof.
  intros E Hp Hg. unfold alive. rewrite E.
  apply bool_decide_eq_true. split; [assumption | now exists g].
Qed.

(** A pid that is in the table passes the test. *)
Lemma alive_fits os svc : alive os svc = true -> pid_overflows os svc = false.
Proof.
  unfold alive, pid_overflows.
  destruct (pid (service_status svc)) as [p|]; [|reflexivity].
  intros H. apply bool_decide_eq_true in H as [_ [g Hg]].
  apply bool_decide_eq_false. intros [_ Hnone]. congruence.
Qed.

Lemma stop_daemon_stopped force svc os :
  alive os svc = false -> pid_overflows os svc = false ->
  _stop_daemon force svc os = (Ok tt, assign_pid None svc, os).
Proof.
  intros Hdead Hfits. unfold _stop_daemon. unfold mbind at 1, M_bind at 1.
  now rewrite daemon_not_running_run, Hfits, Hdead.
Qed.


Lemma stop_daemon_live force svc os p g :
  pid (service_status svc) = Some p -> 0 < p -> os_procs os !! p = Some g ->
  _stop_daemon force svc os
  = (Ok tt, svc, log_event (EvKillpg g (stop_signal force)) os).
Proof.
  intros E Hp Hg. unfold _stop_daemon. unfold mbind at 1, M_bind at 1.
  rewrite daemon_not_running_run.
  rewrite (alive_fits os svc (pid_alive os svc p g E Hp Hg)).
  rewrite (pid_alive os svc p g E Hp Hg). cbn [negb].
  rewrite (bind_ok _ _ svc os svc svc os eq_refl).
  rewrite E. cbn [int_of].
  assert (Hget : os_getpgid (Self := LocalDaemonService) p svc os = (Ok g, svc, os)).
  { unfold os_getpgid. rewrite (bind_ok _ _ svc os os svc os eq_refl).
    now rewrite Hg. }
  rewrite (bind_ok _ _ _ _ _ _ _ Hget).
  unfold os_killpg. rewrite (bind_ok _ _ svc os os svc os eq_refl).
  rewrite bool_decide_eq_true_2
    by (apply (map_Exists_lookup_2 _ _ p g); [assumption | reflexivity]).
  unfold emit. do 3 f_equal.
  now destruct force as [[|]|].
Qed.

Lemma start_daemon_run to_json svc os :
  _start_daemon to_json svc os
  = if pid_overflows os svc then (Raise OverflowError, svc, os)
    else if alive os svc then (Ok tt, assign_pid None svc, os)
    else match service_endpoint svc with
         | None => launched to_json svc os
         | Some ep =>
             match prepare_for_start ep os with
             | (Ok _, ep', os') => launched to_json (assign_endpoint ep' svc) os'
             | (Raise e, ep', os') => (Raise e, assign_endpoint ep' svc, os')
             end
         end.
Proof.
  unfold _start_daemon. unfold mbind at 1, M_bind at 1.
  rewrite daemon_running_run.
  destruct (pid_overflows os svc); [reflexivity|].
  destruct (alive os svc); [reflexivity|].
  rewrite (bind_ok _ _ svc os svc svc os eq_refl).
  destruct (service_endpoint svc) as [ep|].
  - unfold mbind at 1, M_bind at 1, on_part.
    destruct (prepare_for_start ep os) as [[[[] | e] ep'] os']; reflexivity.
  - reflexivity.
Qed.

(** *** The monitor *)

Lemma check_endpoint_no_uri ep mon os :
  truthy (status_uri (endpoint_status ep)) = false ->
  check_endpoint_status ep mon os
  = (Ok (ERROR, Some "No healthcheck URI available"), mon, os).
Proof.
  intros Huri. unfold check_endpoint_status, get_healthcheck_uri.
  unfold mbind, M_bind, get_self. now rewrite Huri.
Qed.

Lemma get_healthcheck_uri_run ep mon os u :
  status_uri (endpoint_status ep) = Some u -> u <> EmptyString ->
  get_healthcheck_uri ep mon os = (Ok (Some (healthcheck_uri mon u)), mon, os).
Proof.
  intros Huri Hne. unfold get_healthcheck_uri.
  rewrite (bind_ok _ _ mon os mon mon os eq_refl). cbv zeta.
  rewrite Huri. destruct u as [|c u]; [congruence|]. reflexivity.
Qed.

Lemma check_endpoint_probe ep mon os u :
  status_uri (endpoint_status ep) = Some u -> u <> EmptyString ->
  check_endpoint_status ep mon os
  = (Ok match os_head os (healthcheck_uri mon u) (http_timeout (monitor_config mon)) with
        | Response code =>
            if bool_decide (Some code = http_status_code (monitor_config mon))
            then (ACTIVE, None)
            else (ERROR, Some (unexpected_status_message code))
        | Raises e =>
            if issubclass (exc_class e) ConnectionError
            then (ERROR, Some (connection_message e))
            else if issubclass (exc_class e) Timeout
            then (ERROR, Some (timeout_message e))
            else (ERROR, Some (request_error_message e))
        end,
     mon,
     log_event (EvHead (healthcheck_uri mon u) (http_timeout (monitor_config mon)))
       os).
Proof.
  intros Huri Hne. unfold check_endpoint_status.
  rewrite (bind_ok _ _ _ _ _ _ _ (get_healthcheck_uri_run ep mon os u Huri Hne)).
  replace (truthy (Some (healthcheck_uri mon u))) with true
    by (destruct u; [congruence | reflexivity]).
  cbn [negb str_of].
  rewrite (bind_ok _ _ mon os mon mon os eq_refl).
  unfold requests_head.
  rewrite (bind_ok _ _ mon os
             (os_head os (healthcheck_uri mon u) (http_timeout (monitor_config mon)))
             mon
             (log_event (EvHead (healthcheck_uri mon u)
                           (http_timeout (monitor_config mon))) os)
             eq_refl).
  destruct (os_head os (healthcheck_uri mon u)
              (http_timeout (monitor_config mon))) as [code | e].
  - now destruct (bool_decide _).
  - destruct (issubclass (exc_class e) ConnectionError); [reflexivity|].
    now destruct (issubclass (exc_class e) Timeout).
Qed.

(** ** The status check *)

(** C1 (as the specification words it): [check_status] combines process
    liveness with the health of the endpoint, so that a live daemon behind
    an unhealthy endpoint is reported as ERROR with the monitor's message.
    It does not: the daemon with pid 4242 runs, the monitor of its endpoint
    reports ERROR for the 404 it gets, and [check_status] answers
    (ACTIVE, None). *)
Lemma check_status_ignores_endpoint :
  ~ combines_liveness_and_health crowded_host unhealthy_service.
Proof.
  intros H.
  destruct (H ACTIVE None eq_refl) as (_ & Hunhealthy & _).
  destruct (Hunhealthy eq_refl
              (Some "service endpoint healthcheck returned HTTP status code 404")
              eq_refl) as [Hstate _].
  discriminate Hstate.
Qed.

(** C1 (amended): [check_status] reports process liveness only.  When no
    pid is recorded or the host does not know the pid, it returns ERROR with
    "service daemon is not running"; when the process exists it returns
    (ACTIVE, None); a recorded pid that fits no C int (2**31 or more) makes
    the liveness test itself raise OverflowError.  In every case the
    endpoint is not probed: the host is left as it was, whatever the
    endpoint and its health. *)
Theorem check_status_reports_liveness (svc : LocalDaemonService) (os : OS) :
  result (check_status svc os)
  = (if pid_overflows os svc then Raise OverflowError
     else Ok (if alive os svc then (ACTIVE, None)
              else (ERROR, Some "service daemon is not running"))) /\
  os_after (check_status svc os) = os.
Proof. rewrite check_status_run. split; reflexivity. Qed.

(** C4 (as the specification words it): for every service state
    [check_status] returns a pair of a state and an optional message.  It
    does not for a recorded pid of 2**31: the liveness test raises
    OverflowError. *)
Lemma check_status_raises_on_huge_pid :
  ~ returns_state_and_message quiet_host huge_pid_service.
Proof. intros (st & msg & H). vm_compute in H. discriminate H. Qed.

(** C4 (amended): [check_status] has no side effect.  For every service and
    host the service object, hence its Status record and the pid in it, is
    unchanged, and so is the host.  It returns a pair of a state and an
    optional message whenever the recorded pid, if any, fits a C int; for a
    larger pid it raises OverflowError, still without changing anything. *)
Theorem check_status_side_effect_free (svc : LocalDaemonService) (os : OS) :
  (if pid_overflows os svc
   then result (check_status svc os) = Raise OverflowError
   else exists (st : ServiceState) (msg : option string),
          result (check_status svc os) = Ok (st, msg)) /\
  service_status (self_after (check_status svc os)) = service_status svc /\
  pid (service_status (self_after (check_status svc os)))
  = pid (service_status svc) /\
  self_after (check_status svc os) = svc /\
  os_after (check_status svc os) = os.
Proof.
  rewrite check_status_run. unfold result, self_after, os_after. cbn [fst snd].
  split; [|repeat split].
  destruct (pid_overflows os svc); [reflexivity|].
  destruct (alive os svc); eexists _, _; reflexivity.
Qed.

(** ** Stopping the daemon *)

(** C5 (as the specification words it): for every service, [deprovision]
    leaves Status with the pid cleared.  It does not when the recorded
    process exists: the signal is sent and the pid stays. *)
Lemma deprovision_live_keeps_pid :
  ~ clears_pid (Some false) crowded_host unhealthy_service.
Proof. intros [_ Hpid]. vm_compute in Hpid. discriminate Hpid. Qed.

(** C5 (amended): on a service that is already stopped (no pid recorded, or
    a recorded pid that fits a C int and does not exist) [deprovision]
    raises no error, sends no signal and leaves Status with the pid cleared;
    a second call in a row does the same and changes nothing further. *)
Theorem deprovision_stopped_idempotent (force force' : option bool)
    (svc : LocalDaemonService) (os : OS) :
  alive os svc = false -> pid_overflows os svc = false ->
  deprovision force svc os = (Ok tt, assign_pid None svc, os) /\
  deprovision force' (assign_pid None svc) os = (Ok tt, assign_pid None svc, os) /\
  pid (service_status (assign_pid None svc)) = None.
Proof.
  intros Hdead Hfits. unfold deprovision.
  rewrite (stop_daemon_stopped force svc os Hdead Hfits).
  rewrite (stop_daemon_stopped force' (assign_pid None svc) os eq_refl eq_refl).
  split; [reflexivity|]. split; reflexivity.
Qed.

Lemma deprovision_stopped_idempotent_witness :
  (alive quiet_host stopped_service = false /\
   pid_overflows quiet_host stopped_service = false) /\
  deprovision (Some false) stopped_service quiet_host
  = (Ok tt, assign_pid None stopped_service, quiet_host) /\
  deprovision (Some true) (assign_pid None stopped_service) quiet_host
  = (Ok tt, assign_pid None stopped_service, quiet_host) /\
  pid (service_status (assign_pid None stopped_service)) = None.
Proof.
  split; [split; reflexivity|].
  apply (deprovision_stopped_idempotent (Some false) (Some true)
           stopped_service quiet_host).
  - reflexivity.
  - reflexivity.
Defined.



(** ** The HTTP monitor *)

(** C8: when the status of the endpoint holds no URI (none, or an empty
    one), the HTTP monitor returns ERROR with "No healthcheck URI available"
    and issues no request: the host, and the trace of calls in it, is as
    before. *)
Theorem no_uri_no_request (ep : LocalDaemonServiceEndpoint)
    (mon : HttpEndpointHealthMonitor) (os : OS) :
  status_uri (endpoint_status ep) = None \/
  status_uri (endpoint_status ep) = Some EmptyString ->
  check_endpoint_status ep mon os
  = (Ok (ERROR, Some "No healthcheck URI available"), mon, os) /\
  os_trace (os_after (check_endpoint_status ep mon os)) = os_trace os.
Proof.
  intros Huri.
  assert (Hfalse : truthy (status_uri (endpoint_status ep)) = false)
    by (destruct Huri as [E | E]; now rewrite E).
  now rewrite (check_endpoint_no_uri ep mon os Hfalse).
Qed.

Lemma no_uri_no_request_witness :
  (status_uri (endpoint_status (sample_endpoint None None None None)) = None \/
   status_uri (endpoint_status (sample_endpoint None None None None))
   = Some EmptyString) /\
  check_endpoint_status (sample_endpoint None None None None) sample_monitor
    quiet_host
  = (Ok (ERROR, Some "No healthcheck URI available"), sample_monitor, quiet_host) /\
  os_trace (os_after (check_endpoint_status (sample_endpoint None None None None)
                        sample_monitor quiet_host))
  = os_trace quiet_host.
Proof.
  split.
  - left. reflexivity.
  - apply (no_uri_no_request (sample_endpoint None None None None)
             sample_monitor quiet_host).
    left. reflexivity.
Defined.

Lemma append_empty_r (s : string) : s +:+ EmptyString = s.
Proof.
  induction s as [|c s IH]; [reflexivity|].
  change (String c (s +:+ EmptyString) = String c s). now rewrite IH.
Qed.

Lemma verdict_computed expected (h : HeadResult) v :
  Verdict expected h v ->
  v = match h with
      | Response code =>
          if bool_decide (Some code = expected)
          then (ACTIVE, None)
          else (ERROR, Some (unexpected_status_message code))
      | Raises e =>
          if issubclass (exc_class e) ConnectionError
          then (ERROR, Some (connection_message e))
          else if issubclass (exc_class e) Timeout
          then (ERROR, Some (timeout_message e))
          else (ERROR, Some (request_error_message e))
      end.
Proof.
  intros [code E | code E | e Hc | e Hc Ht | e Hc Ht].
  - now rewrite bool_decide_eq_true_2.
  - now rewrite bool_decide_eq_false_2.
  - now rewrite Hc.
  - now rewrite Hc, Ht.
  - now rewrite Hc, Ht.
Qed.

(** C9: with a URI in the status of the endpoint, the HTTP monitor sends
    one HEAD request to the check URI with the configured timeout.  A
    response with the expected status code gives (ACTIVE, None); a response
    with another code gives ERROR with a message that contains the code; a
    connection failure, a timeout and any other request error give ERROR
    with messages that differ from one cause to the other. *)
Theorem http_probe_verdict (ep : LocalDaemonServiceEndpoint)
    (mon : HttpEndpointHealthMonitor) (os : OS) (u : string)
    (v : ServiceState * option string) :
  status_uri (endpoint_status ep) = Some u -> u <> EmptyString ->
  Verdict (http_status_code (monitor_config mon))
    (os_head os (healthcheck_uri mon u) (http_timeout (monitor_config mon))) v ->
  check_endpoint_status ep mon os
  = (Ok v, mon,
     log_event (EvHead (healthcheck_uri mon u) (http_timeout (monitor_config mon)))
       os) /\
  (forall code, Contains (str_int code) (unexpected_status_message code)) /\
  (forall e1 e2 e3,
     connection_message e1 <> timeout_message e2 /\
     connection_message e1 <> request_error_message e3 /\
     timeout_message e2 <> request_error_message e3).
Proof.
  intros Huri Hne Hv. split; [|split].
  - rewrite (check_endpoint_probe ep mon os u Huri Hne).
    now rewrite (verdict_computed _ _ _ Hv).
  - intros code.
    exists "service endpoint healthcheck returned HTTP status code ", EmptyString.
    now rewrite append_empty_r.
  - intros e1 e2 e3. repeat split; discriminate.
Qed.

Lemma http_probe_verdict_witness :
  (status_uri (endpoint_status unhealthy_endpoint) = Some "http://localhost:8002" /\
   "http://localhost:8002" <> EmptyString /\
   Verdict (http_status_code (monitor_config sample_monitor))
     (os_head crowded_host (healthcheck_uri sample_monitor "http://localhost:8002")
        (http_timeout (monitor_config sample_monitor)))
     (ERROR, Some (unexpected_status_message 404))) /\
  check_endpoint_status unhealthy_endpoint sample_monitor crowded_host
  = (Ok (ERROR, Some (unexpected_status_message 404)), sample_monitor,
     log_event (EvHead "http://localhost:8002/" (Some 5)) crowded_host).
Proof.
  assert (Hv : Verdict (http_status_code (monitor_config sample_monitor))
                 (os_head crowded_host
                    (healthcheck_uri sample_monitor "http://localhost:8002")
                    (http_timeout (monitor_config sample_monitor)))
                 (ERROR, Some (unexpected_status_message 404))).
  { apply verdict_status. discriminate. }
  split.
  - split; [reflexivity|]. split; [discriminate | exact Hv].
  - apply (http_probe_verdict unhealthy_endpoint sample_monitor crowded_host
             "http://localhost:8002" _ eq_refl ltac:(discriminate) Hv).
Defined.

(** A connect timeout is both a connection failure and a timeout; the
    handler for connection failures comes first. *)
Example connect_timeout_reported_as_connection_failure :
  result (check_endpoint_status unhealthy_endpoint sample_monitor full_host)
  = Ok (ERROR, Some "cannot connect to service API: timed out").
Proof. reflexivity. Qed.

Example healthy_endpoint_is_active :
  result (check_endpoint_status unhealthy_endpoint sample_monitor quiet_host)
  = Ok (ACTIVE, None).
Proof. reflexivity. Qed.

(** ** Port allocation *)

(** C2: the allocation follows a fixed preference order.  A preferred port
    that is configured and free is selected; otherwise, when the search may
    go on, the port recorded in the status by the previous run is reused if
    it is free; otherwise the ports of the range, from 8000 upwards and
    below 65535, are tried in ascending order and the first free one is
    selected.  [_lookup_free_port] returns the selected port and leaves the
    endpoint as it is; [prepare_for_start] records it in the status, with
    the protocol of the configuration and the host name "localhost". *)
Theorem port_allocation_preference (ep : LocalDaemonServiceEndpoint) (os : OS)
    (p : Z) :
  PortChoice ep os p ->
  result (_lookup_free_port ep os) = Ok p /\
  self_after (_lookup_free_port ep os) = ep /\
  result (prepare_for_start ep os) = Ok tt /\
  self_after (prepare_for_start ep os) = started_on p ep.
Proof.
  intros Hchoice.
  destruct (lookup_choice ep os p Hchoice) as [os1 E1].
  destruct (lookup_choice (preparing ep) os p (choice_preparing _ _ _ Hchoice))
    as [os2 E2].
  rewrite E1, prepare_for_start_run, E2. easy.
Qed.

Lemma port_allocation_preference_witness :
  (PortChoice (sample_endpoint (Some 9000) (Some false) (Some 8001) None)
     crowded_host 9000 /\
   PortChoice (sample_endpoint (Some 8080) (Some true) (Some 9001) None)
     crowded_host 9001 /\
   PortChoice (sample_endpoint None (Some false) (Some 8001) None)
     crowded_host 8002) /\
  (result (_lookup_free_port
             (sample_endpoint (Some 9000) (Some false) (Some 8001) None)
             crowded_host) = Ok 9000 /\
   result (_lookup_free_port
             (sample_endpoint (Some 8080) (Some true) (Some 9001) None)
             crowded_host) = Ok 9001 /\
   result (_lookup_free_port
             (sample_endpoint None (Some false) (Some 8001) None)
             crowded_host) = Ok 8002 /\
   self_after (prepare_for_start
                 (sample_endpoint None (Some false) (Some 8001) None)
                 crowded_host)
   = started_on 8002 (sample_endpoint None (Some false) (Some 8001) None)).
Proof.
  assert (H1 : PortChoice (sample_endpoint (Some 9000) (Some false) (Some 8001) None)
                 crowded_host 9000).
  { apply choose_preferred.
    - split; [reflexivity | discriminate].
    - split; [lia | reflexivity]. }
  assert (H2 : PortChoice (sample_endpoint (Some 8080) (Some true) (Some 9001) None)
                 crowded_host 9001).
  { apply choose_previous.
    - right. exists 8080. split; [split; [reflexivity | discriminate]|].
      split; [split; [lia | reflexivity] | reflexivity].
    - reflexivity.
    - discriminate.
    - split; [lia | reflexivity]. }
  assert (H3 : PortChoice (sample_endpoint None (Some false) (Some 8001) None)
                 crowded_host 8002).
  { apply choose_first_free.
    - left. left. reflexivity.
    - right. right. exists 8001. split; [reflexivity|].
      split; [discriminate | split; [lia | reflexivity]].
    - unfold in_range. cbn. lia.
    - split; [lia | reflexivity].
    - intros x Hx. cbn in Hx.
      assert (Hx' : x = 8000 \/ x = 8001) by lia.
      destruct Hx' as [-> | ->]; reflexivity. }
  split; [exact (conj H1 (conj H2 H3))|].
  split; [exact (proj1 (port_allocation_preference _ _ _ H1))|].
  split; [exact (proj1 (port_allocation_preference _ _ _ H2))|].
  split; [exact (proj1 (port_allocation_preference _ _ _ H3))|].
  exact (proj2 (proj2 (proj2 (port_allocation_preference _ _ _ H3)))).
Defined.

(** The upper bound of the range is not tried: with port 65535 as the only
    free one, the scan finds nothing. *)
Example upper_bound_not_scanned :
  result (_lookup_free_port (sample_endpoint None (Some true) None None)
            {| os_procs := ∅; os_port_free := fun p => p =? 65535;
               os_head := fun _ _ => Response 200; os_next_pid := 1;
               os_parent_pgid := 1; os_tmp_name := EmptyString;
               os_executable := EmptyString; os_environ := [];
               os_trace := [] |})
  = Raise no_free_port.
Proof. vm_compute. reflexivity. Qed.



Lemma first_available_receiver count : forall lo e self self' os,
  first_available count lo (raise e) self os
  = (result (first_available count lo (raise e) self' os), self,
     os_after (first_available count lo (raise e) self' os)).
Proof.
  induction count as [|count IH]; intros lo e self self' os.
  - reflexivity.
  - cbn [first_available].
    destruct (decide (0 <= lo <= 65535)) as [Hvalid | Hinvalid].
    + rewrite (bind_ok _ _ _ _ _ _ _ (port_is_available_run lo self os Hvalid)).
      rewrite (bind_ok _ _ _ _ _ _ _ (port_is_available_run lo self' os Hvalid)).
      destruct (os_port_free os lo); [reflexivity|].
      apply IH.
    + rewrite (bind_raise _ _ _ _ _ _ _
                 (port_is_available_overflow lo self os ltac:(lia))).
      rewrite (bind_raise _ _ _ _ _ _ _
                 (port_is_available_overflow lo self' os ltac:(lia))).
      reflexivity.
Qed.

Lemma reuse_or_scan_receiver ep ep' os :
  status_port (endpoint_status ep) = status_port (endpoint_status ep') ->
  reuse_or_scan ep os
  = (result (reuse_or_scan ep' os), ep, os_after (reuse_or_scan ep' os)).
Proof.
  intros Hlast. unfold reuse_or_scan.
  rewrite (bind_ok _ _ ep os ep ep os eq_refl).
  rewrite (bind_ok _ _ ep' os ep' ep' os eq_refl).
  cbv zeta. rewrite <- Hlast.
  destruct (status_port (endpoint_status ep)) as [q|];
    [|apply first_available_receiver].
  unfold py_and. destruct (truthy (Some q)); [|apply first_available_receiver].
  cbn [int_of].
  destruct (decide (0 <= q <= 65535)) as [Hvalid | Hinvalid].
  - rewrite (bind_ok _ _ _ _ _ _ _ (port_is_available_run q ep os Hvalid)).
    rewrite (bind_ok _ _ _ _ _ _ _ (port_is_available_run q ep' os Hvalid)).
    destruct (os_port_free os q); [reflexivity|].
    apply first_available_receiver.
  - rewrite (bind_raise _ _ _ _ _ _ _
               (port_is_available_overflow q ep os ltac:(lia))).
    rewrite (bind_raise _ _ _ _ _ _ _
               (port_is_available_overflow q ep' os ltac:(lia))).
    reflexivity.
Qed.

Lemma reuse_or_scan_raises ep os e :
  result (reuse_or_scan ep os) = Raise e ->
  e = no_free_port \/ e = OverflowError.
Proof.
  assert (Hlast : forall self os1 e1,
             result (first_available (range_length SERVICE_PORT_RANGE)
                       (fst SERVICE_PORT_RANGE) (raise no_free_port) self os1)
             = Raise e1 -> e1 = no_free_port \/ e1 = OverflowError).
  { intros self os1 e1. apply first_available_raises.
    intros self' os' e' E. now inversion E. }
  unfold reuse_or_scan.
  rewrite (bind_ok _ _ ep os ep ep os eq_refl). cbv zeta.
  destruct (status_port (endpoint_status ep)) as [q|]; [|apply Hlast].
  unfold py_and. destruct (truthy (Some q)); [|apply Hlast].
  cbn [int_of].
  destruct (decide (0 <= q <= 65535)) as [Hvalid | Hinvalid].
  - rewrite (bind_ok _ _ _ _ _ _ _ (port_is_available_run q ep os Hvalid)).
    destruct (os_port_free os q); [intros E; discriminate E | apply Hlast].
  - rewrite (bind_raise _ _ _ _ _ _ _
               (port_is_available_overflow q ep os ltac:(lia))).
    intros E. inversion E. now right.
Qed.

Lemma lookup_no_preferred ep os :
  no_preferred (endpoint_config ep) ->
  _lookup_free_port ep os = reuse_or_scan ep os.
Proof.
  intros Hnone. unfold _lookup_free_port.
  rewrite (bind_ok _ _ ep os ep ep os eq_refl). cbv zeta.
  now rewrite (truthy_port_none _ Hnone).
Qed.

(** C10: without a preferred port (the field unset or 0) the flag
    [allocate_port] plays no part.  The search goes straight to the port of
    the previous run and to the scan of the range; it never raises the
    error kept for a busy pinned port; and it returns the same result, with
    the same bind attempts, whatever the value of the flag. *)
Theorem no_preferred_ignores_allocate_port (ep : LocalDaemonServiceEndpoint)
    (os : OS) :
  no_preferred (endpoint_config ep) ->
  _lookup_free_port ep os = reuse_or_scan ep os /\
  (forall p, result (_lookup_free_port ep os) <> Raise (port_not_available p)) /\
  (forall a,
     result (_lookup_free_port (with_allocate_port a ep) os)
     = result (_lookup_free_port ep os) /\
     os_after (_lookup_free_port (with_allocate_port a ep) os)
     = os_after (_lookup_free_port ep os)).
Proof.
  intros Hnone. split; [|split].
  - now apply lookup_no_preferred.
  - intros p E. rewrite (lookup_no_preferred _ _ Hnone) in E.
    destruct (reuse_or_scan_raises _ _ _ E) as [E' | E']; discriminate E'.
  - intros a.
    rewrite (lookup_no_preferred ep os Hnone).
    rewrite (lookup_no_preferred (with_allocate_port a ep) os)
      by (destruct Hnone as [E | E]; [left | right]; exact E).
    now rewrite (reuse_or_scan_receiver (with_allocate_port a ep) ep os eq_refl).
Qed.

Lemma no_preferred_ignores_allocate_port_witness :
  no_preferred (endpoint_config
                  (sample_endpoint None (Some false) (Some 8001) None)) /\
  result (_lookup_free_port (sample_endpoint None (Some false) (Some 8001) None)
            crowded_host) = Ok 8002 /\
  result (_lookup_free_port
            (with_allocate_port (Some true)
               (sample_endpoint None (Some false) (Some 8001) None))
            crowded_host) = Ok 8002.
Proof.
  split; [left; reflexivity|].
  split; [reflexivity|].
  rewrite (proj1 (proj2 (proj2 (no_preferred_ignores_allocate_port
                                  (sample_endpoint None (Some false) (Some 8001) None)
                                  crowded_host (or_introl eq_refl)))
                    (Some true))).
  reflexivity.
Defined.

(** ** Starting the daemon *)

(** C6 (as the specification words it): for every service that is not
    running, [provision] launches the daemon and records its pid.  It does
    not for a recorded pid of 2**31: the liveness test on it raises
    OverflowError and nothing is launched. *)
Lemma provision_raises_on_huge_pid :
  ~ launches_when_not_running sample_to_json quiet_host huge_pid_service.
Proof. intros H. specialize (H eq_refl eq_refl). vm_compute in H. discriminate H. Qed.

(** C6 (amended): when Status holds the pid of a process that exists,
    [provision] does nothing but clear that pid: no port is allocated and no
    process is started, the endpoint and the host stay as they are.  When
    Status holds no pid, or a pid that fits a C int and belongs to no
    process, the endpoint, if there is one, prepares for the start; once
    that has succeeded (or when there is no endpoint) the daemon command is
    launched in a session, and so a process group, of its own, and the pid
    of the child is recorded in Status; an error of the preparation is
    passed on and nothing is launched.  A recorded pid that fits no C int
    makes the liveness test raise OverflowError, and nothing else happens. *)
Theorem provision_starts_daemon (to_json : LocalDaemonService -> string)
    (svc : LocalDaemonService) (os : OS) :
  provision to_json svc os
  = (if pid_overflows os svc then (Raise OverflowError, svc, os)
     else if alive os svc then (Ok tt, assign_pid None svc, os)
     else match service_endpoint svc with
          | None => launched to_json svc os
          | Some ep =>
              match prepare_for_start ep os with
              | (Ok _, ep', os') =>
                  launched to_json (assign_endpoint ep' svc) os'
              | (Raise e, ep', os') => (Raise e, assign_endpoint ep' svc, os')
              end
          end) /\
  (forall svc' os',
     pid (service_status (self_after (launched to_json svc' os')))
     = Some (os_next_pid os') /\
     os_procs (os_after (launched to_json svc' os')) !! os_next_pid os'
     = Some (os_next_pid os') /\
     exists command,
       os_trace (os_after (launched to_json svc' os'))
       = EvPopen command (os_environ os') true
         :: EvWriteTemp (os_tmp_name os' +:+ ".json") (to_json svc')
         :: os_trace os').
Proof.
  split.
  - unfold provision. apply start_daemon_run.
  - intros svc' os'. split; [reflexivity|]. split.
    + unfold launched, os_after, spawn. cbn. apply lookup_insert_eq.
    + eexists. reflexivity.
Qed.

Example provision_when_running :
  provision sample_to_json unhealthy_service crowded_host
  = (Ok tt, assign_pid None unhealthy_service, crowded_host).
Proof. reflexivity. Qed.

Example provision_when_stopped :
  let r := provision sample_to_json stopped_service crowded_host in
  result r = Ok tt /\
  pid (service_status (self_after r)) = Some 5000 /\
  (status_port <$> (endpoint_status <$> service_endpoint (self_after r)))
  = Some (Some 8002) /\
  os_procs (os_after r) !! 5000 = Some 5000.
Proof. vm_compute. repeat split. Qed.

(** ** Every run of the allocation *)

Lemma first_available_cases count : forall lo otherwise self os,
  0 <= lo -> lo + Z.of_nat count <= 65536 ->
  (exists r, lo <= r < lo + Z.of_nat count /\ os_port_free os r = true /\
             (forall x, lo <= x < r -> os_port_free os x = false) /\
             first_available count lo otherwise self os
             = (Ok r, self, log_binds (Z.to_nat (r - lo + 1)) lo os)) \/
  ((forall x, lo <= x < lo + Z.of_nat count -> os_port_free os x = false) /\
   first_available count lo otherwise self os
   = otherwise self (log_binds count lo os)).
Proof.
  induction count as [|count IH]; intros lo otherwise self os Hlo Hhi.
  - right. split; [intros x Hx; lia | reflexivity].
  - destruct (os_port_free os lo) eqn:Hfree.
    + left. exists lo. split; [lia|]. split; [assumption|].
      split; [intros x Hx; lia|].
      apply first_available_found; [lia | lia | lia | assumption |].
      intros x Hx. lia.
    + destruct (IH (lo + 1) otherwise self (log_event (EvBind lo) os)
                  ltac:(lia) ltac:(lia))
        as [(r & Hr & Hrfree & Hbelow & E) | [Hall E]].
      * left. exists r. split; [lia|]. split; [exact Hrfree|].
        assert (Hbelow' : forall x, lo <= x < r -> os_port_free os x = false).
        { intros x Hx. destruct (decide (x = lo)) as [-> | Hne];
            [assumption | apply (Hbelow x); lia]. }
        split; [exact Hbelow'|].
        apply first_available_found; [lia | lia | lia | exact Hrfree | exact Hbelow'].
      * right.
        assert (Hall' : forall x, lo <= x < lo + Z.of_nat (S count) ->
                                  os_port_free os x = false).
        { intros x Hx. destruct (decide (x = lo)) as [-> | Hne];
            [assumption | apply (Hall x); lia]. }
        split; [exact Hall'|].
        now apply first_available_busy.
Qed.

Lemma may_continue_or_settled ep os :
  (exists p, preferred (endpoint_config ep) p /\ ~ valid_port p) \/
  (exists p, preferred (endpoint_config ep) p /\ free os p) \/
  (exists p, preferred (endpoint_config ep) p /\ busy os p /\
             truthy (allocate_port (endpoint_config ep)) = false) \/
  may_continue (endpoint_config ep) os.
Proof.
  destruct (port (endpoint_config ep)) as [p|] eqn:Eport.
  - destruct (decide (p = 0)) as [-> | Hp].
    + right. right. right. left. now right.
    + assert (Hpref : preferred (endpoint_config ep) p) by (now split).
      destruct (decide (valid_port p)) as [Hvalid | Hinvalid].
      * destruct (os_port_free os p) eqn:Hfree.
        -- right. left. exists p. split; [exact Hpref|]. now split.
        -- destruct (allocate_port (endpoint_config ep)) as [[|]|] eqn:Ealloc.
           ++ right. right. right. right. exists p.
              split; [exact Hpref|]. split; [now split | exact Ealloc].
           ++ right. right. left. exists p.
              split; [exact Hpref|]. split; [now split | reflexivity].
           ++ right. right. left. exists p.
              split; [exact Hpref|]. split; [now split | reflexivity].
      * left. now exists p.
  - right. right. right. left. now left.
Qed.

Lemma lookup_preferred_invalid ep os p :
  preferred (endpoint_config ep) p -> ~ valid_port p ->
  _lookup_free_port ep os = (Raise OverflowError, ep, os).
Proof.
  intros Hpref Hinvalid.
  destruct (truthy_port_preferred _ _ Hpref) as [Ht Hint].
  unfold _lookup_free_port. rewrite (bind_ok _ _ ep os ep ep os eq_refl).
  cbv zeta. rewrite Ht, Hint.
  unfold valid_port in Hinvalid.
  now rewrite (bind_raise _ _ _ _ _ _ _
                 (port_is_available_overflow p ep os ltac:(lia))).
Qed.

Lemma reuse_previous_invalid ep os q :
  status_port (endpoint_status ep) = Some q -> q <> 0 -> ~ valid_port q ->
  reuse_or_scan ep os = (Raise OverflowError, ep, os).
Proof.
  intros Hlast Hq Hinvalid. unfold reuse_or_scan.
  rewrite (bind_ok _ _ ep os ep ep os eq_refl). cbv zeta.
  rewrite Hlast. unfold py_and.
  replace (truthy (Some q)) with true
    by (symmetry; now apply truthy_int_spec).
  cbn [int_of]. unfold valid_port in Hinvalid.
  now rewrite (bind_raise _ _ _ _ _ _ _
                 (port_is_available_overflow q ep os ltac:(lia))).
Qed.

Lemma busy_after_preferred ep os q :
  busy os q -> busy (after_preferred ep os) q.
Proof. intros [? ?]. split; [assumption | now rewrite port_free_after_preferred]. Qed.

Lemma free_after_preferred ep os q :
  free os q -> free (after_preferred ep os) q.
Proof. intros [? ?]. split; [assumption | now rewrite port_free_after_preferred]. Qed.

Lemma no_reuse_after_preferred ep os :
  no_reuse (endpoint_status ep) os ->
  no_reuse (endpoint_status ep) (after_preferred ep os).
Proof.
  intros [E | [E | (q & E & Hq & Hbusy)]].
  - now left.
  - right. now left.
  - right. right. exists q. split; [assumption|]. split; [assumption|].
    now apply busy_after_preferred.
Qed.

Lemma scan_outcome ep os :
  may_continue (endpoint_config ep) os ->
  no_reuse (endpoint_status ep) os ->
  let run := first_available (range_length SERVICE_PORT_RANGE)
               (fst SERVICE_PORT_RANGE) (raise no_free_port) ep
               (after_previous ep (after_preferred ep os)) in
  LookupRun ep os (result run) (os_after run) /\ self_after run = ep.
Proof.
  intros Hcont Hno run. subst run.
  destruct (first_available_cases (range_length SERVICE_PORT_RANGE)
              (fst SERVICE_PORT_RANGE) (raise no_free_port) ep
              (after_previous ep (after_preferred ep os)))
    as [(r & Hr & Hfree & Hbelow & E) | [Hall E]].
  - cbn [fst SERVICE_PORT_RANGE]. lia.
  - rewrite range_length_ports. cbn [fst SERVICE_PORT_RANGE]. lia.
  - rewrite E. split; [|reflexivity].
    rewrite range_length_ports in Hr. cbn [fst SERVICE_PORT_RANGE] in Hr.
    rewrite port_free_after_previous, port_free_after_preferred in Hfree.
    apply run_scan; [assumption | assumption | | |].
    + unfold in_range. cbn [fst snd SERVICE_PORT_RANGE]. lia.
    + split; [lia | assumption].
    + intros x Hx.
      rewrite <- (port_free_after_preferred ep os x).
      rewrite <- (port_free_after_previous ep (after_preferred ep os) x).
      now apply Hbelow.
  - rewrite E. split; [|reflexivity].
    apply run_exhausted; [assumption | assumption |].
    intros x [Hlo Hhi].
    rewrite <- (port_free_after_preferred ep os x).
    rewrite <- (port_free_after_previous ep (after_preferred ep os) x).
    apply Hall. rewrite range_length_ports.
    cbn [fst snd SERVICE_PORT_RANGE] in Hlo, Hhi |- *. lia.
Qed.

(** The run of [_lookup_free_port] is one of the seven of [LookupRun], and
    the endpoint is not touched. *)
Lemma lookup_run ep os :
  LookupRun ep os (result (_lookup_free_port ep os))
    (os_after (_lookup_free_port ep os)) /\
  self_after (_lookup_free_port ep os) = ep.
Proof.
  destruct (may_continue_or_settled ep os)
    as [(p & Hpref & Hinv) | [(p & Hpref & Hfree) | [(p & Hpref & Hbusy & Hpin) | Hcont]]].
  - rewrite (lookup_preferred_invalid ep os p Hpref Hinv).
    split; [|reflexivity]. now apply (run_preferred_invalid ep os p).
  - rewrite (lookup_preferred_free ep os p Hpref Hfree).
    split; [|reflexivity]. now apply run_preferred_free.
  - rewrite (lookup_preferred_pinned ep os p Hpref Hbusy Hpin).
    split; [|reflexivity]. now apply run_pinned.
  - rewrite (lookup_continues ep os Hcont).
    destruct (status_port (endpoint_status ep)) as [q|] eqn:Elast.
    + destruct (decide (q = 0)) as [-> | Hq].
      * assert (Hno : no_reuse (endpoint_status ep) os) by (right; now left).
        rewrite (scan_after_previous ep _ (no_reuse_after_preferred ep os Hno)).
        apply (scan_outcome ep os Hcont Hno).
      * destruct (decide (valid_port q)) as [Hvalid | Hinvalid].
        -- destruct (os_port_free os q) eqn:Hfree.
           ++ rewrite (reuse_previous ep _ q Elast Hq
                         (free_after_preferred ep os q (conj Hvalid Hfree))).
              split; [|reflexivity]. now apply run_previous.
           ++ assert (Hno : no_reuse (endpoint_status ep) os).
              { right. right. exists q. split; [exact Elast|].
                split; [exact Hq|]. now split. }
              rewrite (scan_after_previous ep _ (no_reuse_after_preferred ep os Hno)).
              apply (scan_outcome ep os Hcont Hno).
        -- rewrite (reuse_previous_invalid ep _ q Elast Hq Hinvalid).
           split; [|reflexivity]. now apply (run_previous_invalid ep os q).
    + assert (Hno : no_reuse (endpoint_status ep) os) by now left.
      rewrite (scan_after_previous ep _ (no_reuse_after_preferred ep os Hno)).
      apply (scan_outcome ep os Hcont Hno).
Qed.

(** *** What a run leaves of the host *)

Lemma binds_trans os1 os2 os3 :
  BindsOnly os1 os2 -> BindsOnly os2 os3 -> BindsOnly os1 os3.
Proof.
  intros H12 H23. induction H23 as [|os3 p _ IH].
  - exact H12.
  - now apply binds_more.
Qed.

Lemma binds_log_binds count : forall p os, BindsOnly os (log_binds count p os).
Proof.
  induction count as [|count IH]; intros p os.
  - apply binds_none.
  - cbn [log_binds].
    apply (binds_trans os (log_event (EvBind p) os)); [|apply IH].
    apply binds_more, binds_none.
Qed.

Lemma binds_after_preferred ep os : BindsOnly os (after_preferred ep os).
Proof.
  unfold after_preferred. destruct (truthy _).
  - apply binds_more, binds_none.
  - apply binds_none.
Qed.

Lemma binds_after_previous ep os : BindsOnly os (after_previous ep os).
Proof.
  unfold after_previous. destruct (truthy _).
  - apply binds_more, binds_none.
  - apply binds_none.
Qed.

Lemma binds_frame os os' :
  BindsOnly os os' ->
  os_procs os' = os_procs os /\
  os_port_free os' = os_port_free os /\
  os_head os' = os_head os /\
  os_next_pid os' = os_next_pid os /\
  os_parent_pgid os' = os_parent_pgid os /\
  os_tmp_name os' = os_tmp_name os /\
  os_executable os' = os_executable os /\
  os_environ os' = os_environ os /\
  exists evs, os_trace os' = evs ++ os_trace os /\
              Forall (fun e => is_bind e = true) evs.
Proof.
  induction 1 as [|os' p _ IH].
  - repeat (split; [reflexivity|]). exists []. split; [reflexivity | constructor].
  - destruct IH as (H1 & H2 & H3 & H4 & H5 & H6 & H7 & H8 & evs & Ht & Hb).
    cbn [log_event os_procs os_port_free os_head os_next_pid os_parent_pgid
         os_tmp_name os_executable os_environ os_trace].
    repeat (split; [assumption|]).
    exists (EvBind p :: evs). split.
    + rewrite Ht. reflexivity.
    + constructor; [reflexivity | assumption].
Qed.

Lemma lookup_run_binds ep os r os' :
  LookupRun ep os r os' -> BindsOnly os os'.
Proof.
  intros [p _ _ | p _ _ | p _ _ _ | q _ _ _ _ | q _ _ _ _ | x _ _ _ _ _ | _ _ _].
  - apply binds_none.
  - apply binds_more, binds_none.
  - apply binds_more, binds_none.
  - apply binds_after_preferred.
  - apply binds_more, binds_after_preferred.
  - eapply binds_trans; [apply binds_after_preferred|].
    eapply binds_trans; [apply binds_after_previous | apply binds_log_binds].
  - eapply binds_trans; [apply binds_after_preferred|].
    eapply binds_trans; [apply binds_after_previous | apply binds_log_binds].
Qed.

Lemma preferred_unique cfg p q : preferred cfg p -> preferred cfg q -> p = q.
Proof. intros [E1 _] [E2 _]. congruence. Qed.

Lemma preferred_not_none cfg p : preferred cfg p -> ~ no_preferred cfg.
Proof. intros [E Hp] [E' | E']; congruence. Qed.

Lemma lookup_ok_sound ep os p os' :
  LookupRun ep os (Ok p) os' ->
  free os p /\
  (port (endpoint_config ep) = Some p \/
   status_port (endpoint_status ep) = Some p \/ in_range p).
Proof.
  intros Hrun. inversion Hrun as
      [ | p' Hpref Hfree | | | q Hcont Hlast Hq Hfree
        | r Hcont Hno Hr Hfree Hbelow | ]; subst.
  - split; [assumption|]. left. apply Hpref.
  - split; [assumption|]. right. now left.
  - split; [assumption|]. right. now right.
Qed.

(** X1: a port returned by [_lookup_free_port] was free on the host, with a
    valid port number, and it is the configured port, the port of the
    previous run or a port of the range. *)
Theorem lookup_returns_free_port (ep : LocalDaemonServiceEndpoint) (os : OS)
    (p : Z) :
  result (_lookup_free_port ep os) = Ok p ->
  free os p /\
  (port (endpoint_config ep) = Some p \/
   status_port (endpoint_status ep) = Some p \/ in_range p).
Proof.
  intros E. destruct (lookup_run ep os) as [Hrun _].
  rewrite E in Hrun. exact (lookup_ok_sound ep os p _ Hrun).
Qed.

Lemma lookup_returns_free_port_witness :
  result (_lookup_free_port
            (sample_endpoint (Some 8080) (Some true) (Some 8001) None)
            crowded_host) = Ok 8002 /\
  free crowded_host 8002 /\
  (port (endpoint_config
           (sample_endpoint (Some 8080) (Some true) (Some 8001) None))
   = Some 8002 \/
   status_port (endpoint_status
                  (sample_endpoint (Some 8080) (Some true) (Some 8001) None))
   = Some 8002 \/ in_range 8002).
Proof.
  split; [reflexivity|].
  apply (lookup_returns_free_port
           (sample_endpoint (Some 8080) (Some true) (Some 8001) None)
           crowded_host 8002).
  reflexivity.
Defined.

(** X2: when the preferred port is busy and a port is returned all the
    same, the returned port is another one, it is free, and [allocate_port]
    is enabled. *)
Theorem busy_preferred_port_is_replaced (ep : LocalDaemonServiceEndpoint)
    (os : OS) (q p : Z) :
  preferred (endpoint_config ep) q -> busy os q ->
  result (_lookup_free_port ep os) = Ok p ->
  p <> q /\ free os p /\ allocate_port (endpoint_config ep) = Some true.
Proof.
  intros Hpref [Hvalid Hbusy] E. destruct (lookup_run ep os) as [Hrun _].
  rewrite E in Hrun.
  destruct (lookup_ok_sound ep os p _ Hrun) as [[Hpvalid Hfree] _].
  split; [intros ->; congruence|]. split; [now split|].
  assert (Hcont : may_continue (endpoint_config ep) os).
  { clear E.
    remember (os_after (_lookup_free_port ep os)) as os' eqn:Eos. clear Eos.
    inversion Hrun as
        [ | p' Hpref' Hfree' | | | q' Hcont _ _ _ | r Hcont _ _ _ _ | ]; subst;
      try assumption.
    rewrite (preferred_unique _ _ _ Hpref Hpref') in Hbusy.
    destruct Hfree' as [_ Hfree']. congruence. }
  destruct Hcont as [Hnone | (p' & _ & _ & Halloc)]; [|exact Halloc].
  now destruct (preferred_not_none _ _ Hpref).
Qed.

Lemma busy_preferred_port_is_replaced_witness :
  (preferred (endpoint_config
                (sample_endpoint (Some 8080) (Some true) (Some 8001) None)) 8080 /\
   busy crowded_host 8080 /\
   result (_lookup_free_port
             (sample_endpoint (Some 8080) (Some true) (Some 8001) None)
             crowded_host) = Ok 8002) /\
  8002 <> 8080 /\ free crowded_host 8002 /\
  allocate_port (endpoint_config
                   (sample_endpoint (Some 8080) (Some true) (Some 8001) None))
  = Some true.
Proof.
  assert (Hpref : preferred (endpoint_config
                    (sample_endpoint (Some 8080) (Some true) (Some 8001) None)) 8080)
    by (split; [reflexivity | discriminate]).
  assert (Hbusy : busy crowded_host 8080) by (split; [lia | reflexivity]).
  split; [split; [exact Hpref | split; [exact Hbusy | reflexivity]]|].
  exact (busy_preferred_port_is_replaced _ crowded_host 8080 8002
           Hpref Hbusy eq_refl).
Defined.

Lemma lookup_raise_sound ep os e os' :
  LookupRun ep os (Raise e) os' ->
  (exists q, preferred (endpoint_config ep) q /\ busy os q /\
             truthy (allocate_port (endpoint_config ep)) = false /\
             e = port_not_available q) \/
  (e = no_free_port /\ forall x, in_range x -> os_port_free os x = false) \/
  (e = OverflowError /\
   ((exists p, port (endpoint_config ep) = Some p /\ ~ valid_port p) \/
    (exists q, status_port (endpoint_status ep) = Some q /\ ~ valid_port q))).
Proof.
  intros Hrun. remember (Raise e) as r eqn:Er.
  destruct Hrun as
      [ p Hpref Hinv | p Hpref Hfree | p Hpref Hbusy Hpin | q Hcont Hq Hq0 Hinv
        | q Hcont Hq Hq0 Hfree | x Hcont Hno Hr Hfree Hbelow | Hcont Hno Hall ].
  - inversion Er. right. right. split; [reflexivity|]. left.
    exists p. split; [apply Hpref | exact Hinv].
  - discriminate Er.
  - inversion Er. left. exists p.
    split; [exact Hpref|]. split; [exact Hbusy|]. split; [exact Hpin | reflexivity].
  - inversion Er. right. right. split; [reflexivity|]. right. now exists q.
  - discriminate Er.
  - discriminate Er.
  - inversion Er. right. left. now split.
Qed.

(** X3: with [allocate_port] enabled and valid port numbers in the
    configuration and in the status, the allocation succeeds as soon as one
    port of the range is free. *)
Theorem lookup_succeeds_when_range_has_free_port
    (ep : LocalDaemonServiceEndpoint) (os : OS) (r : Z) :
  allocate_port (endpoint_config ep) = Some true ->
  (forall p, port (endpoint_config ep) = Some p -> valid_port p) ->
  (forall q, status_port (endpoint_status ep) = Some q -> valid_port q) ->
  in_range r -> os_port_free os r = true ->
  exists p, result (_lookup_free_port ep os) = Ok p /\ free os p.
Proof.
  intros Halloc Hcfg Hlast Hr Hfree.
  destruct (lookup_run ep os) as [Hrun _].
  destruct (result (_lookup_free_port ep os)) as [p | e] eqn:E.
  - exists p. split; [reflexivity|].
    exact (proj1 (lookup_ok_sound ep os p _ Hrun)).
  - exfalso.
    destruct (lookup_raise_sound ep os e _ Hrun)
      as [(q & _ & _ & Hpin & _) | [[_ Hall] | [_ [(p & Hp & Hinv) | (q & Hq & Hinv)]]]].
    + rewrite Halloc in Hpin. discriminate Hpin.
    + rewrite (Hall r Hr) in Hfree. discriminate Hfree.
    + apply Hinv, Hcfg, Hp.
    + apply Hinv, Hlast, Hq.
Qed.

Lemma lookup_succeeds_when_range_has_free_port_witness :
  (allocate_port (endpoint_config
                    (sample_endpoint (Some 8080) (Some true) (Some 8001) None))
   = Some true /\
   in_range 9000 /\ os_port_free crowded_host 9000 = true) /\
  exists p,
    result (_lookup_free_port
              (sample_endpoint (Some 8080) (Some true) (Some 8001) None)
              crowded_host) = Ok p /\
    free crowded_host p.
Proof.
  assert (Hr : in_range 9000) by (unfold in_range; cbn; lia).
  split; [split; [reflexivity | split; [exact Hr | reflexivity]]|].
  apply (lookup_succeeds_when_range_has_free_port
           (sample_endpoint (Some 8080) (Some true) (Some 8001) None)
           crowded_host 9000 eq_refl).
  - intros p E. inversion E. unfold valid_port. lia.
  - intros q E. inversion E. unfold valid_port. lia.
  - exact Hr.
  - reflexivity.
Defined.

(** X4: the allocation fails in three ways only.  The error naming a port
    means that this port is the preferred one, is busy and [allocate_port]
    is off; the error about the range means that every port of the range is
    busy; an [OverflowError] means that the configured port or the port of
    the previous run is no port number (outside 0-65535). *)
Theorem lookup_failure_causes (ep : LocalDaemonServiceEndpoint) (os : OS)
    (e : Exception) :
  result (_lookup_free_port ep os) = Raise e ->
  (exists q, preferred (endpoint_config ep) q /\ busy os q /\
             truthy (allocate_port (endpoint_config ep)) = false /\
             e = port_not_available q) \/
  (e = no_free_port /\ forall x, in_range x -> os_port_free os x = false) \/
  (e = OverflowError /\
   ((exists p, port (endpoint_config ep) = Some p /\ ~ valid_port p) \/
    (exists q, status_port (endpoint_status ep) = Some q /\ ~ valid_port q))).
Proof.
  intros E. destruct (lookup_run ep os) as [Hrun _]. rewrite E in Hrun.
  exact (lookup_raise_sound ep os e _ Hrun).
Qed.

Lemma lookup_failure_causes_witness :
  result (_lookup_free_port
            (sample_endpoint (Some 70000) (Some true) None None) idle_host)
  = Raise OverflowError /\
  ((exists q, preferred (endpoint_config
                (sample_endpoint (Some 70000) (Some true) None None)) q /\
              busy idle_host q /\
              truthy (allocate_port
                        (endpoint_config
                           (sample_endpoint (Some 70000) (Some true) None None)))
              = false /\
              OverflowError = port_not_available q) \/
   (OverflowError = no_free_port /\
    forall x, in_range x -> os_port_free idle_host x = false) \/
   (OverflowError = OverflowError /\
    ((exists p, port (endpoint_config
                        (sample_endpoint (Some 70000) (Some true) None None))
                = Some p /\ ~ valid_port p) \/
     (exists q, status_port (endpoint_status
                               (sample_endpoint (Some 70000) (Some true) None None))
                = Some q /\ ~ valid_port q)))).
Proof.
  split; [reflexivity|].
  apply (lookup_failure_causes
           (sample_endpoint (Some 70000) (Some true) None None) idle_host
           OverflowError).
  reflexivity.
Defined.

(** X5: the allocation does nothing but try to bind ports.  The endpoint is
    not changed, the process table and the next pid of the host are as
    before, and every call added to the trace is a bind attempt: no request,
    no file, no process, no signal. *)
Theorem lookup_only_binds (ep : LocalDaemonServiceEndpoint) (os : OS) :
  self_after (_lookup_free_port ep os) = ep /\
  os_procs (os_after (_lookup_free_port ep os)) = os_procs os /\
  os_next_pid (os_after (_lookup_free_port ep os)) = os_next_pid os /\
  exists evs,
    os_trace (os_after (_lookup_free_port ep os)) = evs ++ os_trace os /\
    Forall (fun e => is_bind e = true) evs.
Proof.
  destruct (lookup_run ep os) as [Hrun Hself].
  destruct (binds_frame _ _ (lookup_run_binds _ _ _ _ Hrun))
    as (Hprocs & _ & _ & Hnext & _ & _ & _ & _ & Hevs).
  exact (conj Hself (conj Hprocs (conj Hnext Hevs))).
Qed.

(** ** Preparing the start *)

Lemma free_binds os os' p : BindsOnly os os' -> free os p -> free os' p.
Proof.
  intros Hb [Hvalid Hfree]. destruct (binds_frame _ _ Hb) as (_ & Hpf & _).
  split; [assumption | now rewrite Hpf].
Qed.

Lemma busy_binds os os' p : BindsOnly os os' -> busy os p -> busy os' p.
Proof.
  intros Hb [Hvalid Hbusy]. destruct (binds_frame _ _ Hb) as (_ & Hpf & _).
  split; [assumption | now rewrite Hpf].
Qed.

Lemma may_continue_binds cfg os os' :
  BindsOnly os os' -> may_continue cfg os -> may_continue cfg os'.
Proof.
  intros Hb [Hnone | (p & Hpref & Hbusy & Halloc)].
  - now left.
  - right. exists p. split; [assumption|].
    split; [now apply (busy_binds os) | assumption].
Qed.

Lemma prepare_for_start_outcome ep os :
  exists r os',
    _lookup_free_port (preparing ep) os = (r, preparing ep, os') /\
    LookupRun (preparing ep) os r os' /\
    prepare_for_start ep os
    = match r with
      | Ok p => (Ok tt, started_on p ep, os')
      | Raise e => (Raise e, preparing ep, os')
      end.
Proof.
  destruct (lookup_run (preparing ep) os) as [Hrun Hself].
  rewrite prepare_for_start_run.
  unfold result, self_after, os_after in Hrun, Hself.
  destruct (_lookup_free_port (preparing ep) os) as [[r ep'] os'].
  cbn in Hrun, Hself. subst ep'.
  exists r, os'. split; [reflexivity|]. split; [assumption|].
  now destruct r.
Qed.


(** X7: preparing the start a second time on the host as the first
    preparation left it succeeds again and changes nothing in the endpoint:
    the port chosen first is chosen again. *)
Theorem prepare_for_start_twice (ep : LocalDaemonServiceEndpoint) (os : OS) :
  result (prepare_for_start ep os) = Ok tt ->
  result (prepare_for_start (self_after (prepare_for_start ep os))
            (os_after (prepare_for_start ep os))) = Ok tt /\
  self_after (prepare_for_start (self_after (prepare_for_start ep os))
                (os_after (prepare_for_start ep os)))
  = self_after (prepare_for_start ep os).
Proof.
  destruct (prepare_for_start_outcome ep os) as (r & os' & _ & Hrun & E).
  rewrite E. destruct r as [p | e]; [|intros H; discriminate H].
  intros _. cbn [self_after os_after fst snd].
  unfold self_after, os_after. cbn [fst snd].
  pose proof (lookup_run_binds _ _ _ _ Hrun) as Hb.
  destruct (lookup_ok_sound _ _ _ _ Hrun) as [Hfree _].
  assert (Hchoice : PortChoice (started_on p ep) os' p).
  { inversion Hrun as
        [ | p' Hpref Hfree' | | | q Hcont Hlast Hq Hfree'
          | x Hcont Hno Hr Hfree' Hbelow | ]; subst.
    - apply choose_preferred; [exact Hpref | now apply (free_binds os)].
    - apply choose_previous;
        [ now apply (may_continue_binds _ os) | reflexivity | assumption
        | now apply (free_binds os) ].
    - apply choose_previous;
        [ now apply (may_continue_binds _ os) | reflexivity
        | | now apply (free_binds os) ].
      destruct Hr as [Hlo _]. cbn in Hlo. lia. }
  destruct (lookup_choice _ _ _ Hchoice) as [os2 E2].
  rewrite prepare_for_start_run.
  change (preparing (started_on p ep)) with (started_on p ep).
  rewrite E2. split; reflexivity.
Qed.

Lemma prepare_for_start_twice_witness :
  result (prepare_for_start
            (sample_endpoint (Some 8080) (Some true) None None) crowded_host)
  = Ok tt /\
  result (prepare_for_start
            (self_after (prepare_for_start
                           (sample_endpoint (Some 8080) (Some true) None None)
                           crowded_host))
            (os_after (prepare_for_start
                         (sample_endpoint (Some 8080) (Some true) None None)
                         crowded_host))) = Ok tt /\
  self_after (prepare_for_start
                (self_after (prepare_for_start
                               (sample_endpoint (Some 8080) (Some true) None None)
                               crowded_host))
                (os_after (prepare_for_start
                             (sample_endpoint (Some 8080) (Some true) None None)
                             crowded_host)))
  = self_after (prepare_for_start
                  (sample_endpoint (Some 8080) (Some true) None None)
                  crowded_host).
Proof.
  split; [reflexivity|].
  apply (prepare_for_start_twice
           (sample_endpoint (Some 8080) (Some true) None None) crowded_host).
  reflexivity.
Defined.

(** ** Starting, checking and stopping in a row *)

Lemma prepare_for_start_binds ep os :
  BindsOnly os (os_after (prepare_for_start ep os)).
Proof.
  destruct (prepare_for_start_outcome ep os) as (r & os' & _ & Hrun & E).
  rewrite E. pose proof (lookup_run_binds _ _ _ _ Hrun) as Hb.
  now destruct r.
Qed.

(** A successful [provision] of a service that was not running launched the
    daemon, on a host that saw bind attempts only since [os]. *)
Lemma provision_ok_launched to_json svc os :
  alive os svc = false ->
  result (provision to_json svc os) = Ok tt ->
  exists svc' os',
    BindsOnly os os' /\
    service_status svc' = service_status svc /\
    provision to_json svc os = launched to_json svc' os'.
Proof.
  intros Hdead. unfold provision. rewrite start_daemon_run.
  destruct (pid_overflows os svc); [intros H; discriminate H|].
  rewrite Hdead.
  destruct (service_endpoint svc) as [ep|].
  - pose proof (prepare_for_start_binds ep os) as Hb.
    destruct (prepare_for_start ep os) as [[[[] | e] ep'] os'];
      [|intros H; discriminate H].
    intros _. exists (assign_endpoint ep' svc), os'. now repeat split.
  - intros _. exists svc, os. split; [apply binds_none | now split].
Qed.

Lemma provision_raise_prepare to_json svc os e :
  result (provision to_json svc os) = Raise e ->
  (pid_overflows os svc = true /\ e = OverflowError /\
   provision to_json svc os = (Raise OverflowError, svc, os)) \/
  (exists ep,
     service_endpoint svc = Some ep /\
     provision to_json svc os
     = (Raise e, assign_endpoint (self_after (prepare_for_start ep os)) svc,
        os_after (prepare_for_start ep os)) /\
     result (prepare_for_start ep os) = Raise e).
Proof.
  unfold provision. rewrite start_daemon_run.
  destruct (pid_overflows os svc).
  - intros H. inversion H. left. split; [reflexivity|]. split; reflexivity.
  - destruct (alive os svc); [intros H; discriminate H|].
    destruct (service_endpoint svc) as [ep|]; [|intros H; discriminate H].
    destruct (prepare_for_start ep os) as [[[[] | e'] ep'] os'] eqn:Eprep;
      [intros H; discriminate H|].
    intros H. inversion H. subst e'. right. exists ep.
    split; [reflexivity|]. rewrite Eprep. split; reflexivity.
Qed.

Lemma launched_pid_alive to_json svc os os0 :
  BindsOnly os0 os -> 0 < os_next_pid os0 ->
  pid (service_status (self_after (launched to_json svc os)))
  = Some (os_next_pid os0) /\
  os_procs (os_after (launched to_json svc os)) !! os_next_pid os0
  = Some (os_next_pid os0) /\
  alive (os_after (launched to_json svc os)) (self_after (launched to_json svc os))
  = true.
Proof.
  intros Hb Hpos.
  destruct (binds_frame _ _ Hb) as (_ & _ & _ & Hnext & _).
  assert (Hpid : pid (service_status (self_after (launched to_json svc os)))
                 = Some (os_next_pid os0)) by (now rewrite <- Hnext).
  assert (Hproc : os_procs (os_after (launched to_json svc os)) !! os_next_pid os0
                  = Some (os_next_pid os0)).
  { rewrite <- Hnext. unfold launched, os_after, spawn. cbn.
    apply lookup_insert_eq. }
  split; [exact Hpid|]. split; [exact Hproc|].
  exact (pid_alive _ _ _ _ Hpid Hpos Hproc).
Qed.

(** X8: after a [provision] that succeeded on a service that was not
    running, [check_status] reports (ACTIVE, None) and changes nothing. *)
Theorem provision_then_check_status (to_json : LocalDaemonService -> string)
    (svc : LocalDaemonService) (os : OS) :
  alive os svc = false -> 0 < os_next_pid os ->
  result (provision to_json svc os) = Ok tt ->
  check_status (self_after (provision to_json svc os))
    (os_after (provision to_json svc os))
  = (Ok (ACTIVE, None), self_after (provision to_json svc os),
     os_after (provision to_json svc os)).
Proof.
  intros Hdead Hpos Hok.
  destruct (provision_ok_launched to_json svc os Hdead Hok)
    as (svc' & os' & Hb & _ & E).
  rewrite E.
  destruct (launched_pid_alive to_json svc' os' os Hb Hpos) as (_ & _ & Halive).
  now rewrite check_status_run, (alive_fits _ _ Halive), Halive.
Qed.

Lemma provision_then_check_status_witness :
  (alive crowded_host stopped_service = false /\
   0 < os_next_pid crowded_host /\
   result (provision sample_to_json stopped_service crowded_host) = Ok tt) /\
  check_status (self_after (provision sample_to_json stopped_service crowded_host))
    (os_after (provision sample_to_json stopped_service crowded_host))
  = (Ok (ACTIVE, None),
     self_after (provision sample_to_json stopped_service crowded_host),
     os_after (provision sample_to_json stopped_service crowded_host)).
Proof.
  split; [split; [reflexivity | split; [reflexivity | reflexivity]]|].
  apply (provision_then_check_status sample_to_json stopped_service crowded_host).
  - reflexivity.
  - reflexivity.
  - reflexivity.
Defined.

(** X9: a [deprovision] that follows such a [provision] signals the process
    group of the child just started, which is the child's own pid, and
    keeps the pid in Status. *)
Theorem provision_then_deprovision (to_json : LocalDaemonService -> string)
    (svc : LocalDaemonService) (os : OS) (force : option bool) :
  alive os svc = false -> 0 < os_next_pid os ->
  result (provision to_json svc os) = Ok tt ->
  deprovision force (self_after (provision to_json svc os))
    (os_after (provision to_json svc os))
  = (Ok tt, self_after (provision to_json svc os),
     log_event (EvKillpg (os_next_pid os) (stop_signal force))
       (os_after (provision to_json svc os))).
Proof.
  intros Hdead Hpos Hok.
  destruct (provision_ok_launched to_json svc os Hdead Hok)
    as (svc' & os' & Hb & _ & E).
  rewrite E.
  destruct (launched_pid_alive to_json svc' os' os Hb Hpos) as (Hpid & Hproc & _).
  unfold deprovision.
  exact (stop_daemon_live force _ _ _ _ Hpid Hpos Hproc).
Qed.

Lemma provision_then_deprovision_witness :
  (alive crowded_host stopped_service = false /\
   0 < os_next_pid crowded_host /\
   result (provision sample_to_json stopped_service crowded_host) = Ok tt) /\
  deprovision (Some true)
    (self_after (provision sample_to_json stopped_service crowded_host))
    (os_after (provision sample_to_json stopped_service crowded_host))
  = (Ok tt, self_after (provision sample_to_json stopped_service crowded_host),
     log_event (EvKillpg 5000 SIGKILL)
       (os_after (provision sample_to_json stopped_service crowded_host))).
Proof.
  split; [split; [reflexivity | split; [reflexivity | reflexivity]]|].
  apply (provision_then_deprovision sample_to_json stopped_service crowded_host
           (Some true)).
  - reflexivity.
  - reflexivity.
  - reflexivity.
Defined.

(** X10: a second [provision] right after a successful one starts nothing:
    it finds the child alive and clears the pid.  The child is still in the
    process table, yet from then on [check_status] reports that the daemon
    is not running and [deprovision] sends no signal. *)
Theorem provision_twice_forgets_daemon (to_json : LocalDaemonService -> string)
    (svc : LocalDaemonService) (os : OS) (force : option bool) :
  alive os svc = false -> 0 < os_next_pid os ->
  result (provision to_json svc os) = Ok tt ->
  provision to_json (self_after (provision to_json svc os))
    (os_after (provision to_json svc os))
  = (Ok tt, assign_pid None (self_after (provision to_json svc os)),
     os_after (provision to_json svc os)) /\
  os_procs (os_after (provision to_json svc os)) !! os_next_pid os
  = Some (os_next_pid os) /\
  check_status (assign_pid None (self_after (provision to_json svc os)))
    (os_after (provision to_json svc os))
  = (Ok (ERROR, Some "service daemon is not running"),
     assign_pid None (self_after (provision to_json svc os)),
     os_after (provision to_json svc os)) /\
  deprovision force (assign_pid None (self_after (provision to_json svc os)))
    (os_after (provision to_json svc os))
  = (Ok tt, assign_pid None (self_after (provision to_json svc os)),
     os_after (provision to_json svc os)).
Proof.
  intros Hdead Hpos Hok.
  destruct (provision_ok_launched to_json svc os Hdead Hok)
    as (svc' & os' & Hb & _ & E).
  rewrite E.
  destruct (launched_pid_alive to_json svc' os' os Hb Hpos)
    as (_ & Hproc & Halive).
  split; [|split; [exact Hproc | split]].
  - unfold provision.
    now rewrite start_daemon_run, (alive_fits _ _ Halive), Halive.
  - rewrite check_status_run. reflexivity.
  - unfold deprovision.
    rewrite (stop_daemon_stopped force
               (assign_pid None (self_after (launched to_json svc' os')))
               (os_after (launched to_json svc' os')) eq_refl eq_refl).
    reflexivity.
Qed.

Lemma provision_twice_forgets_daemon_witness :
  (alive crowded_host stopped_service = false /\
   0 < os_next_pid crowded_host /\
   result (provision sample_to_json stopped_service crowded_host) = Ok tt) /\
  provision sample_to_json
    (self_after (provision sample_to_json stopped_service crowded_host))
    (os_after (provision sample_to_json stopped_service crowded_host))
  = (Ok tt,
     assign_pid None
       (self_after (provision sample_to_json stopped_service crowded_host)),
     os_after (provision sample_to_json stopped_service crowded_host)).
Proof.
  split; [split; [reflexivity | split; [reflexivity | reflexivity]]|].
  apply (provision_twice_forgets_daemon sample_to_json stopped_service
           crowded_host None).
  - reflexivity.
  - reflexivity.
  - reflexivity.
Defined.

(** X11: a [provision] that raises has started nothing.  The error is
    either the OverflowError of the liveness test on a recorded pid that
    fits no C int, or the one of the endpoint's [prepare_for_start]; the pid
    in Status, stale or not, is as before; the process table is as before;
    and the host saw bind attempts only. *)
Theorem failed_provision_starts_nothing (to_json : LocalDaemonService -> string)
    (svc : LocalDaemonService) (os : OS) (e : Exception) :
  result (provision to_json svc os) = Raise e ->
  ((pid_overflows os svc = true /\ e = OverflowError) \/
   (exists ep, service_endpoint svc = Some ep /\
               result (prepare_for_start ep os) = Raise e)) /\
  pid (service_status (self_after (provision to_json svc os)))
  = pid (service_status svc) /\
  os_procs (os_after (provision to_json svc os)) = os_procs os /\
  os_next_pid (os_after (provision to_json svc os)) = os_next_pid os /\
  exists evs,
    os_trace (os_after (provision to_json svc os)) = evs ++ os_trace os /\
    Forall (fun ev => is_bind ev = true) evs.
Proof.
  intros Hraise.
  destruct (provision_raise_prepare to_json svc os e Hraise)
    as [(Hbig & He & E) | (ep & Hep & E & Hprep)]; rewrite E.
  - split; [left; now split|].
    repeat (split; [reflexivity|]).
    exists []. split; [reflexivity | constructor].
  - destruct (binds_frame _ _ (prepare_for_start_binds ep os))
      as (Hprocs & _ & _ & Hnext & _ & _ & _ & _ & Hevs).
    split; [right; now exists ep|].
    split; [reflexivity|].
    exact (conj Hprocs (conj Hnext Hevs)).
Qed.

Lemma failed_provision_starts_nothing_witness :
  result (provision sample_to_json
            (sample_service (Some 4243)
               (Some (sample_endpoint (Some 8080) (Some false) None None)))
            quiet_host)
  = Raise (port_not_available 8080) /\
  pid (service_status
         (self_after
            (provision sample_to_json
               (sample_service (Some 4243)
                  (Some (sample_endpoint (Some 8080) (Some false) None None)))
               quiet_host)))
  = Some 4243.
Proof.
  split; [reflexivity|].
  apply (failed_provision_starts_nothing sample_to_json
           (sample_service (Some 4243)
              (Some (sample_endpoint (Some 8080) (Some false) None None)))
           quiet_host (port_not_available 8080)).
  reflexivity.
Defined.

(** ** More on the HTTP monitor *)

Lemma uri_cases (ep : LocalDaemonServiceEndpoint) :
  truthy (status_uri (endpoint_status ep)) = false \/
  exists u, status_uri (endpoint_status ep) = Some u /\ u <> EmptyString.
Proof.
  destruct (status_uri (endpoint_status ep)) as [[|c u]|].
  - now left.
  - right. now exists (String c u).
  - now left.
Qed.

(** X12: the HTTP monitor reports ACTIVE exactly when the endpoint has a
    non-empty URI and the HEAD request to the check URI is answered with the
    expected status code; the message is then empty. *)
Theorem http_active_iff (ep : LocalDaemonServiceEndpoint)
    (mon : HttpEndpointHealthMonitor) (os : OS) (msg : option string) :
  result (check_endpoint_status ep mon os) = Ok (ACTIVE, msg) <->
  msg = None /\
  exists u code,
    status_uri (endpoint_status ep) = Some u /\ u <> EmptyString /\
    os_head os (healthcheck_uri mon u) (http_timeout (monitor_config mon))
    = Response code /\
    http_status_code (monitor_config mon) = Some code.
Proof.
  split.
  - destruct (uri_cases ep) as [Hnone | (u & Huri & Hne)].
    + rewrite (check_endpoint_no_uri ep mon os Hnone). intros H. discriminate H.
    + rewrite (check_endpoint_probe ep mon os u Huri Hne). unfold result. cbn [fst].
      destruct (os_head os (healthcheck_uri mon u)
                  (http_timeout (monitor_config mon))) as [code | e] eqn:Ehead.
      * destruct (bool_decide (Some code = http_status_code (monitor_config mon)))
          eqn:Ecode; intros H; inversion H.
        apply bool_decide_eq_true in Ecode.
        split; [reflexivity|]. exists u, code. now repeat split.
      * destruct (issubclass (exc_class e) ConnectionError);
          [intros H; discriminate H|].
        destruct (issubclass (exc_class e) Timeout); intros H; discriminate H.
  - intros (-> & u & code & Huri & Hne & Ehead & Ecode).
    rewrite (check_endpoint_probe ep mon os u Huri Hne), Ehead.
    now rewrite bool_decide_eq_true_2.
Qed.

(** X13: a health check never raises and never changes the monitor.  It
    returns ACTIVE without a message or ERROR with one, and it sends at most
    one HEAD request, with the configured timeout. *)
Theorem http_check_returns_state_and_message (ep : LocalDaemonServiceEndpoint)
    (mon : HttpEndpointHealthMonitor) (os : OS) :
  (result (check_endpoint_status ep mon os) = Ok (ACTIVE, None) \/
   exists m, result (check_endpoint_status ep mon os) = Ok (ERROR, Some m)) /\
  self_after (check_endpoint_status ep mon os) = mon /\
  (os_after (check_endpoint_status ep mon os) = os \/
   exists uri,
     os_after (check_endpoint_status ep mon os)
     = log_event (EvHead uri (http_timeout (monitor_config mon))) os).
Proof.
  destruct (uri_cases ep) as [Hnone | (u & Huri & Hne)].
  - rewrite (check_endpoint_no_uri ep mon os Hnone).
    split; [right; now eexists|]. split; [reflexivity | now left].
  - rewrite (check_endpoint_probe ep mon os u Huri Hne).
    split; [|split; [reflexivity | right; now eexists]].
    unfold result. cbn [fst].
    destruct (os_head os (healthcheck_uri mon u)
                (http_timeout (monitor_config mon))) as [code | e].
    + destruct (bool_decide _); [now left | right; now eexists].
    + right. destruct (issubclass (exc_class e) ConnectionError); [now eexists|].
      destruct (issubclass (exc_class e) Timeout); now eexists.
Qed.

(** X14: a monitor configured without an expected status code
    ([http_status_code] unset) never reports ACTIVE: every check ends in
    ERROR, whatever the endpoint answers. *)
Theorem no_expected_code_never_active (ep : LocalDaemonServiceEndpoint)
    (mon : HttpEndpointHealthMonitor) (os : OS) :
  http_status_code (monitor_config mon) = None ->
  exists m, result (check_endpoint_status ep mon os) = Ok (ERROR, Some m).
Proof.
  intros Hnone.
  destruct (uri_cases ep) as [Huri | (u & Huri & Hne)].
  - rewrite (check_endpoint_no_uri ep mon os Huri). now eexists.
  - rewrite (check_endpoint_probe ep mon os u Huri Hne). unfold result. cbn [fst].
    destruct (os_head os (healthcheck_uri mon u)
                (http_timeout (monitor_config mon))) as [code | e].
    + rewrite Hnone. rewrite bool_decide_eq_false_2 by discriminate. now eexists.
    + destruct (issubclass (exc_class e) ConnectionError); [now eexists|].
      destruct (issubclass (exc_class e) Timeout); now eexists.
Qed.

Lemma no_expected_code_never_active_witness :
  http_status_code
    (monitor_config
       {| monitor_config :=
            {| healthcheck_uri_path := None; http_status_code := None;
               http_timeout := Some 5 |} |}) = None /\
  exists m,
    result (check_endpoint_status unhealthy_endpoint
              {| monitor_config :=
                   {| healthcheck_uri_path := None; http_status_code := None;
                      http_timeout := Some 5 |} |}
              quiet_host) = Ok (ERROR, Some m).
Proof.
  split; [reflexivity|].
  apply (no_expected_code_never_active unhealthy_endpoint
           {| monitor_config :=
                {| healthcheck_uri_path := None; http_status_code := None;
                   http_timeout := Some 5 |} |}
           quiet_host).
  reflexivity.
Defined.

(** ** More on stopping *)


(** X16: a recorded pid of 0 or below is never signalled, even when the
    process table has an entry for it: [deprovision] only clears it, and
    [check_status] reports that the daemon is not running. *)
Theorem nonpositive_pid_never_signalled (svc : LocalDaemonService) (os : OS)
    (p : Z) (force : option bool) :
  pid (service_status svc) = Some p -> p <= 0 ->
  deprovision force svc os = (Ok tt, assign_pid None svc, os) /\
  check_status svc os
  = (Ok (ERROR, Some "service daemon is not running"), svc, os).
Proof.
  intros Hpid Hp.
  assert (Hdead : alive os svc = false).
  { unfold alive. rewrite Hpid. apply bool_decide_eq_false. intros [H _]. lia. }
  assert (Hfits : pid_overflows os svc = false).
  { unfold pid_overflows. rewrite Hpid. apply bool_decide_eq_false.
    unfold INT_MAX. intros [H _]. lia. }
  split.
  - unfold deprovision. now apply stop_daemon_stopped.
  - now rewrite check_status_run, Hfits, Hdead.
Qed.

Lemma nonpositive_pid_never_signalled_witness :
  (pid (service_status (sample_service (Some 0) None)) = Some 0 /\ 0 <= 0) /\
  deprovision (Some true) (sample_service (Some 0) None) quiet_host
  = (Ok tt, assign_pid None (sample_service (Some 0) None), quiet_host) /\
  check_status (sample_service (Some 0) None) quiet_host
  = (Ok (ERROR, Some "service daemon is not running"),
     sample_service (Some 0) None, quiet_host).
Proof.
  split; [split; [reflexivity | lia]|].
  apply (nonpositive_pid_never_signalled (sample_service (Some 0) None)
           quiet_host 0 (Some true)).
  - reflexivity.
  - lia.
Defined.


Example deprovision_raises_on_huge_pid :
  deprovision (Some false) huge_pid_service quiet_host
  = (Raise OverflowError, huge_pid_service, quiet_host).
Proof. reflexivity. Qed.

(** ** The order of the scan *)

Lemma trace_log_binds count : forall p os,
  os_trace (log_binds count p os)
  = reverse (EvBind <$> seqZ p (Z.of_nat count)) ++ os_trace os.
Proof.
  induction count as [|count IH]; intros p os.
  - reflexivity.
  - cbn [log_binds]. rewrite IH.
    rewrite (seqZ_cons p (Z.of_nat (S count))) by lia.
    replace (Z.pred (Z.of_nat (S count))) with (Z.of_nat count) by lia.
    replace (Z.succ p) with (p + 1) by lia.
    rewrite fmap_cons, reverse_cons, <- app_assoc. reflexivity.
Qed.

(** X18: with no preferred port and no port of a previous run, the ports
    tried are 8000, 8001 and so on up to the first free one, each once and
    in this order, and none after it (the trace lists the newest call
    first). *)
Theorem scan_attempts_ascending (ep : LocalDaemonServiceEndpoint) (os : OS)
    (r : Z) :
  no_preferred (endpoint_config ep) ->
  status_port (endpoint_status ep) = None \/
  status_port (endpoint_status ep) = Some 0 ->
  in_range r -> os_port_free os r = true ->
  (forall x, fst SERVICE_PORT_RANGE <= x < r -> os_port_free os x = false) ->
  result (_lookup_free_port ep os) = Ok r /\
  os_trace (os_after (_lookup_free_port ep os))
  = reverse (EvBind <$> seqZ (fst SERVICE_PORT_RANGE)
                          (r - fst SERVICE_PORT_RANGE + 1))
    ++ os_trace os.
Proof.
  intros Hnone Hlast [Hlo Hhi] Hfree Hbelow.
  rewrite (lookup_no_preferred ep os Hnone).
  assert (Hno : no_reuse (endpoint_status ep) os)
    by (destruct Hlast as [E | E]; [now left | right; now left]).
  rewrite (scan_after_previous ep os Hno).
  assert (Hsame : after_previous ep os = os)
    by (unfold after_previous; destruct Hlast as [E | E]; now rewrite E).
  rewrite Hsame.
  cbn [fst snd SERVICE_PORT_RANGE] in Hlo, Hhi, Hbelow |- *.
  rewrite (first_available_found (range_length SERVICE_PORT_RANGE) 8000
             (raise no_free_port) ep os r);
    [ | lia | rewrite range_length_ports; lia | rewrite range_length_ports; lia
      | exact Hfree | exact Hbelow ].
  split; [reflexivity|].
  unfold os_after. cbn [snd].
  rewrite trace_log_binds. now rewrite Z2Nat.id by lia.
Qed.

Lemma scan_attempts_ascending_witness :
  (no_preferred (endpoint_config (sample_endpoint None (Some true) None None)) /\
   in_range 8002 /\ os_port_free crowded_host 8002 = true) /\
  result (_lookup_free_port (sample_endpoint None (Some true) None None)
            crowded_host) = Ok 8002 /\
  os_trace (os_after (_lookup_free_port
                        (sample_endpoint None (Some true) None None)
                        crowded_host))
  = [EvBind 8002; EvBind 8001; EvBind 8000].
Proof.
  assert (Hr : in_range 8002) by (unfold in_range; cbn; lia).
  split; [split; [left; reflexivity | split; [exact Hr | reflexivity]]|].
  apply (scan_attempts_ascending (sample_endpoint None (Some true) None None)
           crowded_host 8002).
  - left. reflexivity.
  - left. reflexivity.
  - exact Hr.
  - reflexivity.
  - intros x Hx. cbn in Hx.
    assert (Hx' : x = 8000 \/ x = 8001) by lia.
    destruct Hx' as [-> | ->]; reflexivity.
Defined.

Lemma http_active_iff_witness :
  (status_uri (endpoint_status unhealthy_endpoint) = Some "http://localhost:8002" /\
   os_head quiet_host (healthcheck_uri sample_monitor "http://localhost:8002")
     (http_timeout (monitor_config sample_monitor)) = Response 200 /\
   http_status_code (monitor_config sample_monitor) = Some 200) /\
  result (check_endpoint_status unhealthy_endpoint sample_monitor quiet_host)
  = Ok (ACTIVE, None).
Proof.
  split; [split; [reflexivity | split; reflexivity]|].
  apply (proj2 (http_active_iff unhealthy_endpoint sample_monitor quiet_host None)).
  split; [reflexivity|].
  exists "http://localhost:8002", 200.
  split; [reflexivity|]. split; [discriminate|]. split; reflexivity.
Defined.
